(** * terraform-provider-aws-ssm-tunnels: the provider's adapters and the tunnel tracker

    A shallow embedding of [internal/provider]: the [remote_tunnel] data
    source and resource, the [ssm_remote_tunnel] data source, and the tunnel
    tracker they drive.

    The adapters are Go methods that talk to collaborators (the tracker, the
    port prober, the UUID generator, the Terraform state).  Each method is
    embedded as a finite interaction program: a tree whose nodes are the
    collaborator calls in program order and whose leaves are the response the
    method leaves behind.  Running a program against a handler for the calls
    yields the response, the final world and the trace of calls made. *)

From Stdlib Require Import ZArith List String Ascii Bool Lia.
From stdpp Require Import base option list gmap strings.

Local Open Scope string_scope.
Local Open Scope Z_scope.

(** ** Interaction programs *)

Section Interaction.
(** [E X] is the type of calls that are answered by a value of type [X]. *)
Context {E : Type -> Type}.

(** A Go method body: it returns, panics (nil dereference), blocks for ever
    (a [select] none of whose cases fires), or calls a collaborator and
    goes on with the answer. *)
Inductive Prog (R : Type) : Type :=
| Ret (r : R)
| Panic
| Block
| Vis {X : Type} (e : E X) (k : X -> Prog R).

Inductive Event : Type :=
| Ev {X : Type} (e : E X) (x : X).

Inductive Outcome (R : Type) : Type :=
| Returned (r : R)
| Panicked
| Blocked.

Definition trace : Type := list Event.

(** A handler answers every call from a world of type [W] it may change. *)
Definition Handler (W : Type) : Type := forall X, E X -> W -> X * W.

Fixpoint run {R W : Type} (h : Handler W) (p : Prog R) (w : W)
  : Outcome R * W * trace :=
  match p with
  | Ret _ r => (Returned R r, w, [])
  | Panic _ => (Panicked R, w, [])
  | Block _ => (Blocked R, w, [])
  | Vis _ e k =>
      let '(x, w1) := h _ e w in
      let '(o, w2, t) := run h (k x) w1 in
      (o, w2, Ev e x :: t)
  end.

Definition outcome_of {R W} (h : Handler W) (p : Prog R) (w : W) : Outcome R :=
  fst (fst (run h p w)).
Definition world_of {R W} (h : Handler W) (p : Prog R) (w : W) : W :=
  snd (fst (run h p w)).
Definition trace_of {R W} (h : Handler W) (p : Prog R) (w : W) : trace :=
  snd (run h p w).
End Interaction.

Arguments Prog : clear implicits.
Arguments Event : clear implicits.
Arguments Outcome : clear implicits.
Arguments trace : clear implicits.
Arguments Handler : clear implicits.
Arguments Ret {E R} r.
Arguments Panic {E R}.
Arguments Block {E R}.
Arguments Vis {E R X} e k.
Arguments Returned {R} r.
Arguments Panicked {R}.
Arguments Blocked {R}.

Notation "x <- e ;; k" := (Vis e (fun x => k))
  (at level 100, e at next level, right associativity).

(** ** Go values used by the provider *)

(** The platform the provider is built for decides the width of Go's [int]:
    32 bits (386, arm) or 64 bits (amd64, arm64). *)
Inductive GOARCH : Type := arch32 | arch64.
Existing Class GOARCH.

(** Go's [int] and [int64]: integers that wrap around at their width; a
    conversion to [int] keeps the low [intSize] bits. *)
Definition wrap (bits z : Z) : Z :=
  (z + 2 ^ (bits - 1)) mod 2 ^ bits - 2 ^ (bits - 1).
Definition intSize {arch : GOARCH} : Z :=
  match arch with arch32 => 32 | arch64 => 64 end.
Definition int {arch : GOARCH} (z : Z) : Z := wrap intSize z.
Arguments int {arch} z : simpl never.
Definition int64 (z : Z) : Z := wrap 64 z.
Definition in_int {arch : GOARCH} (z : Z) : Prop :=
  - 2 ^ (intSize - 1) <= z < 2 ^ (intSize - 1).
Definition in_int64 (z : Z) : Prop := - 2 ^ 63 <= z < 2 ^ 63.

(** A Go [error] value, observed through its [Error()] text. *)
Record error : Type := errorString { Error : string }.

(** [fmt.Sprintf("Error: %s", err)] *)
Definition Sprintf_Error (err : error) : string := "Error: " ++ Error err.

(** *** terraform-plugin-framework: diagnostics *)

Inductive Severity : Type := SeverityError | SeverityWarning.

Record Diagnostic : Type := mkDiagnostic
  { severity : Severity; Summary : string; Detail : string }.

Definition Diagnostics : Type := list Diagnostic.

Definition Severity_eqb (a b : Severity) : bool :=
  match a, b with
  | SeverityError, SeverityError | SeverityWarning, SeverityWarning => true
  | _, _ => false
  end.

Definition Diagnostic_Equal (a b : Diagnostic) : bool :=
  Severity_eqb (severity a) (severity b)
  && String.eqb (Summary a) (Summary b)
  && String.eqb (Detail a) (Detail b).

Definition Contains (diags : Diagnostics) (d : Diagnostic) : bool :=
  existsb (Diagnostic_Equal d) diags.

(** [diags.Append(in...)] skips a diagnostic that is already present. *)
Definition Append (diags new : Diagnostics) : Diagnostics :=
  fold_left (fun acc d => if Contains acc d then acc else (acc ++ [d])%list) new diags.

Definition NewErrorDiagnostic (summary detail : string) : Diagnostic :=
  mkDiagnostic SeverityError summary detail.

Definition AddError (diags : Diagnostics) (summary detail : string) : Diagnostics :=
  Append diags [NewErrorDiagnostic summary detail].

Definition is_error (d : Diagnostic) : bool := Severity_eqb (severity d) SeverityError.

Definition HasError (diags : Diagnostics) : bool := existsb is_error diags.

(** *** terraform-plugin-framework: attribute values *)

(** [types.String] and [types.Int64] are null, unknown or known;
    [ValueString] and [ValueInt64] give the zero value unless known. *)
Inductive types_String : Type :=
| StringNull | StringUnknown | NewStringValue (s : string).

Inductive types_Int64 : Type :=
| Int64Null | Int64Unknown | NewInt64Value (i : Z).

Definition ValueString (v : types_String) : string :=
  match v with NewStringValue s => s | _ => "" end.

Definition ValueInt64 (v : types_Int64) : Z :=
  match v with NewInt64Value i => i | _ => 0 end.

(** ** Go standard library: [strings.Split] and [strconv.Atoi] *)

(** [strings.Split(s, sep)] for a separator [sep] of one byte: the fields
    between the occurrences of [sep], one more field than occurrences. *)
Fixpoint strings_Split (s : string) (sep : ascii) : list string :=
  match s with
  | EmptyString => [EmptyString]
  | String c s' =>
      if Ascii.eqb c sep then EmptyString :: strings_Split s' sep
      else match strings_Split s' sep with
           | [] => [String c EmptyString]
           | field :: fields => String c field :: fields
           end
  end.

(** [strings.Join(fields, sep)], used to state what [strings_Split] computes. *)
Fixpoint strings_Join (fields : list string) (sep : ascii) : string :=
  match fields with
  | [] => EmptyString
  | [field] => field
  | field :: fields => field ++ String sep (strings_Join fields sep)
  end.

(** Whether, and how often, a byte occurs in a string. *)
Fixpoint occurs (sep : ascii) (s : string) : bool :=
  match s with
  | EmptyString => false
  | String c s' => Ascii.eqb c sep || occurs sep s'
  end.

Fixpoint count_byte (sep : ascii) (s : string) : nat :=
  match s with
  | EmptyString => 0%nat
  | String c s' => ((if Ascii.eqb c sep then 1 else 0) + count_byte sep s')%nat
  end.

Inductive NumError : Type := ErrSyntax | ErrRange.

Definition byte (c : ascii) : Z := Z.of_N (N_of_ascii c).
Definition uint8 (z : Z) : Z := z mod 2 ^ 8.
Definition uint64 (z : Z) : Z := z mod 2 ^ 64.
Definition maxUint64 : Z := 2 ^ 64 - 1.

(** The loop of [Atoi]'s fast path: [ch -= '0'; if ch > 9 { syntax error };
    n = n*10 + int(ch)] over the bytes of [s]. *)
Fixpoint Atoi_fast_loop {arch : GOARCH} (s : string) (n : Z) : option Z :=
  match s with
  | EmptyString => Some n
  | String ch s' =>
      let ch := uint8 (byte ch - 48) in
      if 9 <? ch then None else Atoi_fast_loop s' (int (int (n * 10) + ch))
  end.

(** [maxVal] of [ParseUint] for bit size 0, which stands for [IntSize]. *)
Definition maxVal {arch : GOARCH} : Z := 2 ^ intSize - 1.

(** The loop of [ParseUint(s, 10, 0)]: a byte that is no decimal digit is a
    syntax error; an overflow of the accumulated value, of 64 bits or of
    [maxVal], is a range error and ends the loop at once with [maxVal]. *)
Fixpoint ParseUint_loop {arch : GOARCH} (s : string) (n : Z) : Z * option NumError :=
  match s with
  | EmptyString => (n, None)
  | String c s' =>
      if (48 <=? byte c) && (byte c <=? 57) then
        let d := uint8 (byte c - 48) in
        if maxUint64 / 10 + 1 <=? n then (maxVal, Some ErrRange)
        else
          let n := uint64 (n * 10) in
          let n1 := uint64 (n + d) in
          if (n1 <? n) || (maxVal <? n1) then (maxVal, Some ErrRange)
          else ParseUint_loop s' n1
      else (0, Some ErrSyntax)
  end.

Definition strconv_ParseUint {arch : GOARCH} (s : string) : Z * option NumError :=
  match s with
  | EmptyString => (0, Some ErrSyntax)
  | _ => ParseUint_loop s 0
  end.

Definition is_sign (c : ascii) : bool := Ascii.eqb c "+" || Ascii.eqb c "-".

(** [ParseInt(s, 10, 0)]: a sign, then [ParseUint]; a value out of the range
    of [int] is clamped to the nearest bound and reported as a range error. *)
Definition strconv_ParseInt {arch : GOARCH} (s : string) : Z * option NumError :=
  match s with
  | EmptyString => (0, Some ErrSyntax)
  | String c s' =>
      let neg := Ascii.eqb c "-" in
      let s1 := if is_sign c then s' else s in
      let '(un, err) := strconv_ParseUint s1 in
      match err with
      | Some ErrSyntax => (0, Some ErrSyntax)
      | _ =>
          let cutoff := 2 ^ (intSize - 1) in
          if negb neg && (cutoff <=? un) then (int64 (cutoff - 1), Some ErrRange)
          else if neg && (cutoff <? un) then (int64 (- cutoff), Some ErrRange)
          else
            let n := int64 un in
            (if neg then int64 (- n) else n, None)
      end
  end.

(** [strconv.Atoi(s)]: the fast path for a string short enough to fit [int]
    (1 to 9 bytes when [int] has 32 bits, 1 to 18 when it has 64), [ParseInt]
    otherwise. *)
Definition strconv_Atoi {arch : GOARCH} (s : string) : Z * option NumError :=
  let sLen := Z.of_nat (String.length s) in
  if (intSize =? 32) && ((0 <? sLen) && (sLen <? 10))
     || (intSize =? 64) && ((0 <? sLen) && (sLen <? 19)) then
    match s with
    | EmptyString => (0, Some ErrSyntax)
    | String c0 s' =>
        let s1 := if is_sign c0 then s' else s in
        if is_sign c0 && (Z.of_nat (String.length s1) <? 1) then (0, Some ErrSyntax)
        else
          match Atoi_fast_loop s1 0 with
          | None => (0, Some ErrSyntax)
          | Some n => (if Ascii.eqb c0 "-" then int (- n) else n, None)
          end
    end
  else
    let '(i64, err) := strconv_ParseInt s in
    (int i64, err).

(** A decimal numeral: an optional sign, then digits and at least one. *)
Definition is_digit (c : ascii) : bool := (48 <=? byte c) && (byte c <=? 57).

Fixpoint all_digits (s : string) : bool :=
  match s with
  | EmptyString => true
  | String c s' => is_digit c && all_digits s'
  end.

Definition nonempty (s : string) : bool :=
  match s with EmptyString => false | _ => true end.

Definition numeric (s : string) : bool :=
  match s with
  | EmptyString => false
  | String c s' =>
      if is_sign c then nonempty s' && all_digits s' else all_digits s
  end.

(** The strings [Atoi] reads on its fast path are shorter than this, and the
    bounds of [int], to which [ParseInt] clamps. *)
Definition Atoi_fast_bytes {arch : GOARCH} : nat :=
  match arch with arch32 => 10%nat | arch64 => 19%nat end.



(** The number a string of decimal digits denotes, continuing from [n], and
    the number a numeral with its optional sign denotes. *)
Fixpoint decimal_from (n : Z) (s : string) : Z :=
  match s with
  | EmptyString => n
  | String c s' => decimal_from (n * 10 + (byte c - 48)) s'
  end.

Definition numeral_value (s : string) : Z :=
  match s with
  | EmptyString => 0
  | String c s' =>
      if Ascii.eqb c "-" then - decimal_from 0 s'
      else if Ascii.eqb c "+" then decimal_from 0 s'
      else decimal_from 0 s
  end.

(** *** terraform-plugin-framework: provider data, metadata and schemas *)

(** [req.ProviderData], an [any]: nil, a [*TunnelTracker] (a nil pointer is
    [None]; pointers are named by numbers), or a value of another type,
    known by the name [%T] prints. *)
Inductive any : Type :=
| any_nil
| any_TunnelTracker (tracker : option nat)
| any_other (T : string).

Record ConfigureRequest : Type := { ProviderData : any }.

Record MetadataRequest : Type := { ProviderTypeName : string }.
Record MetadataResponse : Type := { TypeName : string }.

(** [fmt.Sprintf("Expected *TunnelTracker, got: %T. Please report this issue
    to the provider developers.", req.ProviderData)] *)
Definition Sprintf_Expected (T : string) : string :=
  "Expected *TunnelTracker, got: " ++ T
  ++ ". Please report this issue to the provider developers.".

(** [schema.StringAttribute] and [schema.Int64Attribute] with the fields the
    provider sets; a field left out of the literal is false. *)
Inductive AttributeType : Type := StringAttribute | Int64Attribute.

Record Attribute : Type := mkAttribute
  { attr_type : AttributeType;
    MarkdownDescription : string;
    Required : bool;
    Optional : bool;
    Computed : bool }.

Record Schema : Type := mkSchema
  { Schema_MarkdownDescription : string;
    Attributes : gmap string Attribute }.

(** The value of an attribute in a model struct. *)
Inductive attr_value : Type :=
| String_value (v : types_String)
| Int64_value (v : types_Int64).

Definition type_of (v : attr_value) : AttributeType :=
  match v with
  | String_value _ => StringAttribute
  | Int64_value _ => Int64Attribute
  end.

(** ** remote_tunnel_data_source.go and the resource of the same name *)

Module RemoteTunnel.

(** [SSMRemoteTunnelDataSourceModel]; [SSMRemoteTunnelResourceModel] is
    declared with the same fields and is the same record here. *)
Record SSMRemoteTunnelDataSourceModel : Type := mkModel
  { Target : types_String;
    RemoteHost : types_String;
    RemotePort : types_Int64;
    LocalPort : types_Int64;
    LocalHost : types_String;
    Region : types_String;
    Id : types_String }.

Definition SSMRemoteTunnelResourceModel : Type := SSMRemoteTunnelDataSourceModel.

(** Modelled from the spec: the tracker's [TunnelInfo] struct is declared
    outside these files; the adapters read its local host and local port
    (the snapshot [StartTunnel] returns). *)
Record TunnelInfo : Type := mkTunnelInfo
  { TunnelInfo_LocalHost : string;
    TunnelInfo_LocalPort : Z }.

(** The collaborators the methods call.  [tracker_StartTunnel] returns Go's
    pair of a [*TunnelInfo] (nil is [None]) and an [error] (nil is [None]). *)
Inductive Call : Type -> Type :=
| ports_FindOpenPort (low high : Z) : Call (Z * option error)
| tracker_StartTunnel (id target remoteHost : string) (remotePort localPort : Z)
                      (region : string) : Call (option TunnelInfo * option error)
| uuid_New_String : Call string
| State_Set (data : SSMRemoteTunnelDataSourceModel) : Call Diagnostics.

(** [req.Config] or [req.State] as [Get(ctx, &data)] decodes it. *)
Record tfsdk_Data : Type := mkData
  { Get_data : SSMRemoteTunnelDataSourceModel;
    Get_diags : Diagnostics }.

Record ReadRequest : Type := { ReadRequest_Config : tfsdk_Data }.
Record CreateRequest : Type := { CreateRequest_Config : tfsdk_Data }.
Record resource_ReadRequest : Type := { ReadRequest_State : tfsdk_Data }.
Record UpdateRequest : Type := { UpdateRequest_Config : tfsdk_Data }.
Record DeleteRequest : Type := { DeleteRequest_State : tfsdk_Data }.
Record ImportStateRequest : Type := { ID : string }.

(** The part of [*resp] the methods write themselves; [resp.State] is
    written through [State_Set]. *)
Record Response : Type := mkResponse { resp_Diagnostics : Diagnostics }.

Definition resp_Append (resp : Response) (new : Diagnostics) : Response :=
  mkResponse (Append (resp_Diagnostics resp) new).
Definition resp_AddError (resp : Response) (summary detail : string) : Response :=
  mkResponse (AddError (resp_Diagnostics resp) summary detail).
Definition resp_HasError (resp : Response) : bool :=
  HasError (resp_Diagnostics resp).

(** func (d *RemoteTunnelDataSource) Read *)
Definition RemoteTunnelDataSource_Read {arch : GOARCH} (req : ReadRequest) (resp : Response)
  : Prog Call Response :=
  let data := Get_data (ReadRequest_Config req) in
  let resp := resp_Append resp (Get_diags (ReadRequest_Config req)) in
  if resp_HasError resp then Ret resp else
  let port := int (ValueInt64 (LocalPort data)) in
  let start (port : Z) : Prog Call Response :=
    r <- tracker_StartTunnel (ValueString (Id data)) (ValueString (Target data))
           (ValueString (RemoteHost data)) (int (ValueInt64 (RemotePort data)))
           port (ValueString (Region data)) ;;
    match snd r with
    | Some err =>
        Ret (resp_AddError resp "Failed to start remote tunnel" (Sprintf_Error err))
    | None =>
        match fst r with
        | None => Panic
        | Some tunnelInfo =>
            let data :=
              mkModel (Target data) (RemoteHost data) (RemotePort data)
                (NewInt64Value (int64 (TunnelInfo_LocalPort tunnelInfo)))
                (NewStringValue (TunnelInfo_LocalHost tunnelInfo))
                (Region data) (Id data) in
            diags <- State_Set data ;;
            Ret (resp_Append resp diags)
        end
    end in
  if port =? 0 then
    r <- ports_FindOpenPort 16000 26000 ;;
    match snd r with
    | Some err =>
        Ret (resp_AddError resp "Failed to find open port" (Sprintf_Error err))
    | None => start (fst r)
    end
  else start port.

(** func (d *RemoteTunnelResource) Create: decodes [req.Config]; a fresh
    [uuid.New().String()] replaces [data.Id] before the state is set *)
Definition RemoteTunnelResource_Create {arch : GOARCH} (req : CreateRequest) (resp : Response)
  : Prog Call Response :=
  let data := Get_data (CreateRequest_Config req) in
  let resp := resp_Append resp (Get_diags (CreateRequest_Config req)) in
  if resp_HasError resp then Ret resp else
  let port := int (ValueInt64 (LocalPort data)) in
  let start (port : Z) : Prog Call Response :=
    r <- tracker_StartTunnel (ValueString (Id data)) (ValueString (Target data))
           (ValueString (RemoteHost data)) (int (ValueInt64 (RemotePort data)))
           port (ValueString (Region data)) ;;
    match snd r with
    | Some err =>
        Ret (resp_AddError resp "Failed to start remote tunnel" (Sprintf_Error err))
    | None =>
        id <- uuid_New_String ;;
        match fst r with
        | None => Panic
        | Some tunnelInfo =>
            let data :=
              mkModel (Target data) (RemoteHost data) (RemotePort data)
                (NewInt64Value (int64 (TunnelInfo_LocalPort tunnelInfo)))
                (NewStringValue (TunnelInfo_LocalHost tunnelInfo))
                (Region data) (NewStringValue id) in
            diags <- State_Set data ;;
            Ret (resp_Append resp diags)
        end
    end in
  if port =? 0 then
    r <- ports_FindOpenPort 16000 26000 ;;
    match snd r with
    | Some err =>
        Ret (resp_AddError resp "Failed to find open port" (Sprintf_Error err))
    | None => start (fst r)
    end
  else start port.

(** func (d *RemoteTunnelResource) Read: decodes [req.State] *)
Definition RemoteTunnelResource_Read {arch : GOARCH} (req : resource_ReadRequest) (resp : Response)
  : Prog Call Response :=
  let data := Get_data (ReadRequest_State req) in
  let resp := resp_Append resp (Get_diags (ReadRequest_State req)) in
  if resp_HasError resp then Ret resp else
  let port := int (ValueInt64 (LocalPort data)) in
  let start (port : Z) : Prog Call Response :=
    r <- tracker_StartTunnel (ValueString (Id data)) (ValueString (Target data))
           (ValueString (RemoteHost data)) (int (ValueInt64 (RemotePort data)))
           port (ValueString (Region data)) ;;
    match snd r with
    | Some err =>
        Ret (resp_AddError resp "Failed to start remote tunnel" (Sprintf_Error err))
    | None =>
        id <- uuid_New_String ;;
        match fst r with
        | None => Panic
        | Some tunnelInfo =>
            let data :=
              mkModel (Target data) (RemoteHost data) (RemotePort data)
                (NewInt64Value (int64 (TunnelInfo_LocalPort tunnelInfo)))
                (NewStringValue (TunnelInfo_LocalHost tunnelInfo))
                (Region data) (NewStringValue id) in
            diags <- State_Set data ;;
            Ret (resp_Append resp diags)
        end
    end in
  if port =? 0 then
    r <- ports_FindOpenPort 16000 26000 ;;
    match snd r with
    | Some err =>
        Ret (resp_AddError resp "Failed to find open port" (Sprintf_Error err))
    | None => start (fst r)
    end
  else start port.

(** func (d *RemoteTunnelResource) Update: decodes [req.Config] *)
Definition RemoteTunnelResource_Update {arch : GOARCH} (req : UpdateRequest) (resp : Response)
  : Prog Call Response :=
  let data := Get_data (UpdateRequest_Config req) in
  let resp := resp_Append resp (Get_diags (UpdateRequest_Config req)) in
  if resp_HasError resp then Ret resp else
  let port := int (ValueInt64 (LocalPort data)) in
  let start (port : Z) : Prog Call Response :=
    r <- tracker_StartTunnel (ValueString (Id data)) (ValueString (Target data))
           (ValueString (RemoteHost data)) (int (ValueInt64 (RemotePort data)))
           port (ValueString (Region data)) ;;
    match snd r with
    | Some err =>
        Ret (resp_AddError resp "Failed to start remote tunnel" (Sprintf_Error err))
    | None =>
        id <- uuid_New_String ;;
        match fst r with
        | None => Panic
        | Some tunnelInfo =>
            let data :=
              mkModel (Target data) (RemoteHost data) (RemotePort data)
                (NewInt64Value (int64 (TunnelInfo_LocalPort tunnelInfo)))
                (NewStringValue (TunnelInfo_LocalHost tunnelInfo))
                (Region data) (NewStringValue id) in
            diags <- State_Set data ;;
            Ret (resp_Append resp diags)
        end
    end in
  if port =? 0 then
    r <- ports_FindOpenPort 16000 26000 ;;
    match snd r with
    | Some err =>
        Ret (resp_AddError resp "Failed to find open port" (Sprintf_Error err))
    | None => start (fst r)
    end
  else start port.

(** func (d *RemoteTunnelResource) Delete *)
Definition RemoteTunnelResource_Delete (req : DeleteRequest) (resp : Response)
  : Prog Call Response :=
  let data := Get_data (DeleteRequest_State req) in
  let resp := resp_Append resp (Get_diags (DeleteRequest_State req)) in
  if resp_HasError resp then Ret resp else Ret resp.

(** [parts[i]]: indexing a slice out of its range panics. *)
Definition index {R : Type} (parts : list string) (i : nat)
    (k : string -> Prog Call R) : Prog Call R :=
  match parts !! i with
  | Some part => k part
  | None => Panic
  end.

(** func (r *RemoteTunnelResource) ImportState.  The errors of both
    [strconv.Atoi] calls and the diagnostics of [resp.State.Set] are
    dropped. *)
Definition RemoteTunnelResource_ImportState {arch : GOARCH} (req : ImportStateRequest) (resp : Response)
  : Prog Call Response :=
  let parts := strings_Split (ID req) "|" in
  if negb (Z.of_nat (length parts) =? 6) then
    Ret (resp_AddError resp "Invalid import ID"
           "Import ID must be in the format `target|remote_host|remote_port|local_port|local_host|region`")
  else
    index parts 0 (fun target =>
    index parts 1 (fun remoteHost =>
    index parts 2 (fun remotePort =>
    index parts 3 (fun localPort =>
    index parts 4 (fun localHost =>
    index parts 5 (fun region =>
      let localPortInt := fst (strconv_Atoi localPort) in
      let remotePortInt := fst (strconv_Atoi remotePort) in
      id <- uuid_New_String ;;
      _ <- State_Set
             (mkModel (NewStringValue target) (NewStringValue remoteHost)
                (NewInt64Value (int64 remotePortInt))
                (NewInt64Value (int64 localPortInt))
                (NewStringValue localHost) (NewStringValue region)
                (NewStringValue id)) ;;
      Ret resp)))))).

(** *** Constructors, metadata, schema and configuration *)

(** [RemoteTunnelDataSource] and [RemoteTunnelResource]: a pointer to the
    tracker, nil until [Configure] sets it. *)
Record RemoteTunnelDataSource : Type := { DataSource_tracker : option nat }.
Record RemoteTunnelResource : Type := { Resource_tracker : option nat }.

(** func NewRemoteTunnelDataSource *)
Definition NewRemoteTunnelDataSource : RemoteTunnelDataSource :=
  {| DataSource_tracker := None |}.

(** func NewRemoteTunnelResource *)
Definition NewRemoteTunnelResource : RemoteTunnelResource :=
  {| Resource_tracker := None |}.

(** func (d *RemoteTunnelDataSource) Metadata *)
Definition RemoteTunnelDataSource_Metadata (req : MetadataRequest)
    (resp : MetadataResponse) : MetadataResponse :=
  {| TypeName := ProviderTypeName req ++ "_remote_tunnel" |}.

(** func (d *RemoteTunnelResource) Metadata *)
Definition RemoteTunnelResource_Metadata (req : MetadataRequest)
    (resp : MetadataResponse) : MetadataResponse :=
  {| TypeName := ProviderTypeName req ++ "_remote_tunnel" |}.

(** func (d *RemoteTunnelDataSource) Schema *)
Definition RemoteTunnelDataSource_Schema : Schema :=
  mkSchema "AWSM SSM Remote Tunnel data source"
    (list_to_map
       [("target",
         mkAttribute StringAttribute
           "The target to start the remote tunnel, such as an instance ID"
           true false false);
        ("remote_host",
         mkAttribute StringAttribute
           "The DNS name or IP address of the remote host" true false false);
        ("remote_port",
         mkAttribute Int64Attribute
           "The port number of the remote host" true false false);
        ("local_host",
         mkAttribute StringAttribute
           "The DNS name or IP address of the local host" false false true);
        ("local_port",
         mkAttribute Int64Attribute
           "The local port number to use for the tunnel" false true true);
        ("region",
         mkAttribute StringAttribute
           "The AWS region to use for the tunnel. This should match the region of the target"
           true false false);
        ("id",
         mkAttribute StringAttribute "Example identifier" false false true)]).

(** func (d *RemoteTunnelResource) Schema: the same literal. *)
Definition RemoteTunnelResource_Schema : Schema :=
  mkSchema "AWSM SSM Remote Tunnel data source"
    (list_to_map
       [("target",
         mkAttribute StringAttribute
           "The target to start the remote tunnel, such as an instance ID"
           true false false);
        ("remote_host",
         mkAttribute StringAttribute
           "The DNS name or IP address of the remote host" true false false);
        ("remote_port",
         mkAttribute Int64Attribute
           "The port number of the remote host" true false false);
        ("local_host",
         mkAttribute StringAttribute
           "The DNS name or IP address of the local host" false false true);
        ("local_port",
         mkAttribute Int64Attribute
           "The local port number to use for the tunnel" false true true);
        ("region",
         mkAttribute StringAttribute
           "The AWS region to use for the tunnel. This should match the region of the target"
           true false false);
        ("id",
         mkAttribute StringAttribute "Example identifier" false false true)]).

(** The field of [SSMRemoteTunnelDataSourceModel] (and of
    [SSMRemoteTunnelResourceModel]) that carries the tag [tfsdk:"name"]. *)
Definition field (data : SSMRemoteTunnelDataSourceModel) (name : string)
  : option attr_value :=
  if String.eqb name "target" then Some (String_value (Target data))
  else if String.eqb name "remote_host" then Some (String_value (RemoteHost data))
  else if String.eqb name "remote_port" then Some (Int64_value (RemotePort data))
  else if String.eqb name "local_port" then Some (Int64_value (LocalPort data))
  else if String.eqb name "local_host" then Some (String_value (LocalHost data))
  else if String.eqb name "region" then Some (String_value (Region data))
  else if String.eqb name "id" then Some (String_value (Id data))
  else None.

(** func (d *RemoteTunnelDataSource) Configure *)
Definition RemoteTunnelDataSource_Configure (d : RemoteTunnelDataSource)
    (req : ConfigureRequest) (resp : Response) : RemoteTunnelDataSource * Response :=
  match ProviderData req with
  | any_nil => (d, resp)
  | any_TunnelTracker tracker => ({| DataSource_tracker := tracker |}, resp)
  | any_other T =>
      (d, resp_AddError resp "Unexpected Data Source Configure Type" (Sprintf_Expected T))
  end.

(** func (d *RemoteTunnelResource) Configure: the same statements, the
    summary of the data source included. *)
Definition RemoteTunnelResource_Configure (d : RemoteTunnelResource)
    (req : ConfigureRequest) (resp : Response) : RemoteTunnelResource * Response :=
  match ProviderData req with
  | any_nil => (d, resp)
  | any_TunnelTracker tracker => ({| Resource_tracker := tracker |}, resp)
  | any_other T =>
      (d, resp_AddError resp "Unexpected Data Source Configure Type" (Sprintf_Expected T))
  end.

(** *** What a trace shows *)

(** The calls of a trace, without their answers. *)
Inductive invoked : Type :=
| FindOpenPort_call (low high : Z)
| StartTunnel_call (id target remoteHost : string) (remotePort localPort : Z)
                   (region : string)
| uuid_call
| State_Set_call (data : SSMRemoteTunnelDataSourceModel).

Definition invoked_of (ev : Event Call) : invoked :=
  match ev with
  | Ev e _ =>
      match e with
      | ports_FindOpenPort low high => FindOpenPort_call low high
      | tracker_StartTunnel id target remoteHost remotePort localPort region =>
          StartTunnel_call id target remoteHost remotePort localPort region
      | uuid_New_String => uuid_call
      | State_Set data => State_Set_call data
      end
  end.

Definition calls {R W : Type} (h : Handler Call W) (p : Prog Call R) (w : W)
  : list invoked :=
  invoked_of <$> trace_of h p w.

Definition is_StartTunnel (c : invoked) : bool :=
  match c with StartTunnel_call _ _ _ _ _ _ => true | _ => false end.

Definition is_FindOpenPort (c : invoked) : bool :=
  match c with FindOpenPort_call _ _ => true | _ => false end.

(** The models handed to [resp.State.Set], in order. *)
Definition persisted (cs : list invoked) : list SSMRemoteTunnelDataSourceModel :=
  omap (fun c => match c with State_Set_call data => Some data | _ => None end) cs.

(** The strings [uuid.New().String()] returned, in order. *)
Definition generated (t : trace Call) : list string :=
  omap (fun ev =>
          match ev with
          | Ev e x =>
              match e in Call X return X -> option string with
              | uuid_New_String => fun id => Some id
              | _ => fun _ => None
              end x
          end) t.

(** A scripted environment: the allocator answers [alloc], the tracker
    answers by the local port it is given, [State.Set] succeeds, and the
    world counts the UUIDs handed out, each different from the ones before. *)
Definition uuid_of (n : nat) : string :=
  "f47ac10b-58cc-4372-a567-0e02b2c3d4" ++ String (ascii_of_nat (48 + n / 10) )
    (String (ascii_of_nat (48 + n mod 10)) EmptyString).

Definition scripted (alloc : Z * option error)
    (started : Z -> option TunnelInfo * option error) : Handler Call nat :=
  fun X e n =>
    match e in Call X return X * nat with
    | ports_FindOpenPort _ _ => (alloc, n)
    | tracker_StartTunnel _ _ _ _ localPort _ => (started localPort, n)
    | uuid_New_String => (uuid_of n, S n)
    | State_Set _ => ([], n)
    end.

(** The tracker of the scripted environment: ready on the port asked for. *)
Definition ready_at (localPort : Z) : option TunnelInfo * option error :=
  (Some (mkTunnelInfo "127.0.0.1" localPort), None).

(** The four methods that start a tunnel, with the request each decodes. *)
Inductive start_op : Type :=
| DataSource_Read (req : ReadRequest)
| Resource_Create (req : CreateRequest)
| Resource_Read (req : resource_ReadRequest)
| Resource_Update (req : UpdateRequest).

Definition decoded (op : start_op) : tfsdk_Data :=
  match op with
  | DataSource_Read req => ReadRequest_Config req
  | Resource_Create req => CreateRequest_Config req
  | Resource_Read req => ReadRequest_State req
  | Resource_Update req => UpdateRequest_Config req
  end.

Definition method {arch : GOARCH} (op : start_op) (resp : Response)
  : Prog Call Response :=
  match op with
  | DataSource_Read req => RemoteTunnelDataSource_Read req resp
  | Resource_Create req => RemoteTunnelResource_Create req resp
  | Resource_Read req => RemoteTunnelResource_Read req resp
  | Resource_Update req => RemoteTunnelResource_Update req resp
  end.

Definition is_resource_op (op : start_op) : bool :=
  match op with DataSource_Read _ => false | _ => true end.

(** The [StartTunnel] call a method makes for [data] once the local port is
    resolved to [port]. *)
Definition start_call {arch : GOARCH} (data : SSMRemoteTunnelDataSourceModel) (port : Z)
  : invoked :=
  StartTunnel_call (ValueString (Id data)) (ValueString (Target data))
    (ValueString (RemoteHost data)) (int (ValueInt64 (RemotePort data)))
    port (ValueString (Region data)).

(** Decoding the request left no error in [resp.Diagnostics]. *)
Definition decodes (op : start_op) (resp : Response) : Prop :=
  resp_HasError (resp_Append resp (Get_diags (decoded op))) = false.

(** A call to neither the port allocator nor [StartTunnel]. *)
Definition other_call (c : invoked) : bool :=
  negb (is_FindOpenPort c) && negb (is_StartTunnel c).

(** The diagnostic of a malformed import ID. *)
Definition import_format_error : Diagnostic :=
  NewErrorDiagnostic "Invalid import ID"
    "Import ID must be in the format `target|remote_host|remote_port|local_port|local_host|region`".

(** The state [ImportState] sets from six fields and a UUID. *)
Definition imported {arch : GOARCH}
    (target remoteHost remotePort localPort localHost region id : string)
  : SSMRemoteTunnelResourceModel :=
  mkModel (NewStringValue target) (NewStringValue remoteHost)
    (NewInt64Value (int64 (fst (strconv_Atoi remotePort))))
    (NewInt64Value (int64 (fst (strconv_Atoi localPort))))
    (NewStringValue localHost) (NewStringValue region) (NewStringValue id).

(** The [TunnelRequest] constraints of the spec's data model, on the
    arguments of a [StartTunnel] call. *)
Definition is_port (p : Z) : bool := (1 <=? p) && (p <=? 65535).

Definition satisfies_constraints (c : invoked) : bool :=
  match c with
  | StartTunnel_call _ target remoteHost remotePort localPort _ =>
      is_port remotePort && is_port localPort
      && negb (String.eqb target "") && negb (String.eqb remoteHost "")
  | _ => true
  end.

(** The answers [StartTunnel] gave, in order. *)
Definition started (t : trace Call) : list (option TunnelInfo * option error) :=
  omap (fun ev =>
          match ev with
          | Ev e x =>
              match e in Call X return X -> option (option TunnelInfo * option error) with
              | tracker_StartTunnel _ _ _ _ _ _ => fun r => Some r
              | _ => fun _ => None
              end x
          end) t.

(** The collaborator a call goes to. *)
Inductive kind : Type := to_allocator | to_tracker | to_uuid | to_state.

Definition kind_of (c : invoked) : kind :=
  match c with
  | FindOpenPort_call _ _ => to_allocator
  | StartTunnel_call _ _ _ _ _ _ => to_tracker
  | uuid_call => to_uuid
  | State_Set_call _ => to_state
  end.

(** The schema that goes with a method. *)
Definition schema_of (op : start_op) : Schema :=
  match op with
  | DataSource_Read _ => RemoteTunnelDataSource_Schema
  | _ => RemoteTunnelResource_Schema
  end.

(** The identities [StartTunnel] was called with, in order. *)
Definition StartTunnel_ids (cs : list invoked) : list string :=
  omap (fun c => match c with
                 | StartTunnel_call id _ _ _ _ _ => Some id
                 | _ => None
                 end) cs.

(** [Read] of the resource on the state [data]. *)
Definition read_state (data : SSMRemoteTunnelDataSourceModel) : start_op :=
  Resource_Read {| ReadRequest_State := mkData data [] |}.

(** *** Example requests *)

(** The RDS tunnel of examples/resources/awsssmtunnels_remote_tunnel/resource.tf,
    with its local port and with the port left to the allocator. *)
Definition rds_config : SSMRemoteTunnelDataSourceModel :=
  mkModel (NewStringValue "i-123456789") (NewStringValue "db.example.internal")
    (NewInt64Value 5432) (NewInt64Value 17638) StringNull
    (NewStringValue "us-east-1") StringNull.

Definition rds_config_auto : SSMRemoteTunnelDataSourceModel :=
  mkModel (NewStringValue "i-123456789") (NewStringValue "db.example.internal")
    (NewInt64Value 5432) Int64Null StringNull
    (NewStringValue "us-east-1") StringNull.

(** The same tunnel with a local port of 2^32, which the schema accepts and
    a 32-bit [int] reads as 0, and an allocator that finds port 18123. *)
Definition wide_port_config : SSMRemoteTunnelDataSourceModel :=
  mkModel (NewStringValue "i-123456789") (NewStringValue "db.example.internal")
    (NewInt64Value 5432) (NewInt64Value 4294967296) StringNull
    (NewStringValue "us-east-1") StringNull.

Definition found_18123 : Z * option error := (18123, None).

(** A configuration the schema accepts (every required attribute is set)
    that breaks each constraint of [TunnelRequest]. *)
Definition unchecked_config : SSMRemoteTunnelDataSourceModel :=
  mkModel (NewStringValue "") (NewStringValue "")
    (NewInt64Value 0) (NewInt64Value 70000) StringNull
    (NewStringValue "us-east-1") StringNull.

Definition create (data : SSMRemoteTunnelDataSourceModel) : start_op :=
  Resource_Create {| CreateRequest_Config := mkData data [] |}.

Definition empty_resp : Response := mkResponse [].

Definition exhausted : Z * option error :=
  (0, Some (errorString "no open port found in range")).

(** An import ID with the name of the remote host where the remote port
    belongs, and one whose remote port is twenty nines and a letter. *)
Definition import_word : ImportStateRequest :=
  {| ID := "i-123456789|db.example.internal|https|17638|127.0.0.1|us-east-1" |}.


Definition import_five : ImportStateRequest :=
  {| ID := "i-123456789|db.example.internal|5432|17638|us-east-1" |}.

(** A request whose decoding failed, a tracker that refuses and one that
    returns neither a tunnel nor an error, and a well-formed import ID. *)
Definition conversion_error : Diagnostic :=
  NewErrorDiagnostic "Value Conversion Error" "unhandled unknown value".

Definition undecoded : start_op :=
  Resource_Create {| CreateRequest_Config := mkData rds_config [conversion_error] |}.

Definition session_exited : error := errorString "session process exited".

Definition refused (localPort : Z) : option TunnelInfo * option error :=
  (None, Some session_exited).

Definition nil_tunnel (localPort : Z) : option TunnelInfo * option error :=
  (None, None).

Definition import_rds : ImportStateRequest :=
  {| ID := "i-123456789|db.example.internal|5432|17638|127.0.0.1|us-east-1" |}.

(** The state [Create] sets for [rds_config] when the world has handed out
    no UUID yet, and the state [ImportState] sets for [import_rds]. *)
Definition rds_created : SSMRemoteTunnelDataSourceModel :=
  mkModel (NewStringValue "i-123456789") (NewStringValue "db.example.internal")
    (NewInt64Value 5432) (NewInt64Value 17638) (NewStringValue "127.0.0.1")
    (NewStringValue "us-east-1") (NewStringValue (uuid_of 0)).

Definition rds_imported {arch : GOARCH} : SSMRemoteTunnelResourceModel :=
  imported "i-123456789" "db.example.internal" "5432" "17638" "127.0.0.1"
    "us-east-1" (uuid_of 0).

End RemoteTunnel.

(** ** ssm_remote_tunnel.go *)

Module SSMRemoteTunnel.

(** [SSMRemoteTunnelDataSourceModel] as this file declares it: no local host. *)
Record SSMRemoteTunnelDataSourceModel : Type := mkModel
  { Target : types_String;
    RemoteHost : types_String;
    RemotePort : types_Int64;
    LocalPort : types_Int64;
    Region : types_String;
    Id : types_String }.

(** Modelled from the spec: the tracker's [TunnelInfo] struct is declared
    outside this file; [Read] only receives from its [ReadySignal] channel,
    which is named here by a number. *)
Record TunnelInfo : Type := mkTunnelInfo { ReadySignal : nat }.

(** The case of the [select] statement that proceeds. *)
Inductive select_case : Type := case_ReadySignal | case_ctx_Done.

(** The collaborators [Read] calls.  [tracker_Tunnels id] is the map read
    [d.tracker.Tunnels[id]] with its [exists] flag; [select] is answered
    by the case that proceeds, or by [None] when the channel is never
    closed and the context never done, and the goroutine stays blocked. *)
Inductive Call : Type -> Type :=
| tracker_StartTunnel (id target remoteHost : string) (remotePort localPort : Z)
                      (region : string) : Call (option error)
| tracker_Tunnels (id : string) : Call (option TunnelInfo)
| select (tunnelInfo : TunnelInfo) : Call (option select_case)
| State_Set (data : SSMRemoteTunnelDataSourceModel) : Call Diagnostics.

Record tfsdk_Data : Type := mkData
  { Get_data : SSMRemoteTunnelDataSourceModel;
    Get_diags : Diagnostics }.

Record ReadRequest : Type := { ReadRequest_Config : tfsdk_Data }.

Record Response : Type := mkResponse { resp_Diagnostics : Diagnostics }.

Definition resp_Append (resp : Response) (new : Diagnostics) : Response :=
  mkResponse (Append (resp_Diagnostics resp) new).
Definition resp_AddError (resp : Response) (summary detail : string) : Response :=
  mkResponse (AddError (resp_Diagnostics resp) summary detail).
Definition resp_HasError (resp : Response) : bool :=
  HasError (resp_Diagnostics resp).

(** func (d *SSMRemoteTunnelDataSource) Read.  There is no [return] after
    the diagnostic for a failed [StartTunnel]. *)
Definition SSMRemoteTunnelDataSource_Read (req : ReadRequest) (resp : Response)
  : Prog Call Response :=
  let data := Get_data (ReadRequest_Config req) in
  let resp := resp_Append resp (Get_diags (ReadRequest_Config req)) in
  if resp_HasError resp then Ret resp else
  err <- tracker_StartTunnel (ValueString (Id data)) (ValueString (Target data))
           (ValueString (RemoteHost data)) (ValueInt64 (RemotePort data))
           (ValueInt64 (LocalPort data)) (ValueString (Region data)) ;;
  let resp :=
    match err with
    | Some err => resp_AddError resp "Failed to start remote tunnel" (Sprintf_Error err)
    | None => resp
    end in
  found <- tracker_Tunnels (ValueString (Id data)) ;;
  match found with
  | None =>
      Ret (resp_AddError resp "Tunnel not found"
             "The requested tunnel does not exist in the tracker.")
  | Some tunnelInfo =>
      fired <- select tunnelInfo ;;
      match fired with
      | Some case_ReadySignal =>
          diags <- State_Set data ;;
          Ret (resp_Append resp diags)
      | Some case_ctx_Done =>
          Ret (resp_AddError resp "Context cancelled or timed out"
                 "The operation was cancelled or timed out before the tunnel became ready.")
      | None => Block
      end
  end.

(** *** Constructor, metadata, schema and configuration *)

Record SSMRemoteTunnelDataSource : Type := { DataSource_tracker : option nat }.

(** func NewSSMRemoteTunnelDataSource *)
Definition NewSSMRemoteTunnelDataSource : SSMRemoteTunnelDataSource :=
  {| DataSource_tracker := None |}.

(** func (d *SSMRemoteTunnelDataSource) Metadata *)
Definition SSMRemoteTunnelDataSource_Metadata (req : MetadataRequest)
    (resp : MetadataResponse) : MetadataResponse :=
  {| TypeName := ProviderTypeName req ++ "_ssm_remote_tunnel" |}.

(** func (d *SSMRemoteTunnelDataSource) Schema *)
Definition SSMRemoteTunnelDataSource_Schema : Schema :=
  mkSchema "AWSM SSM Remote Tunnel data source"
    (list_to_map
       [("target",
         mkAttribute StringAttribute
           "The target to start the remote tunnel, such as an instance ID"
           true false false);
        ("remote_host",
         mkAttribute StringAttribute
           "The DNS name or IP address of the remote host" true false false);
        ("remote_port",
         mkAttribute Int64Attribute
           "The port number of the remote host" true false false);
        ("local_port",
         mkAttribute Int64Attribute
           "The local port number to use for the tunnel" true false false);
        ("region",
         mkAttribute StringAttribute
           "The AWS region to use for the tunnel. This should match the region of the target"
           true false false);
        ("id",
         mkAttribute StringAttribute "Example identifier" false false true)]).

(** The field of [SSMRemoteTunnelDataSourceModel] that carries the tag
    [tfsdk:"name"]. *)
Definition field (data : SSMRemoteTunnelDataSourceModel) (name : string)
  : option attr_value :=
  if String.eqb name "target" then Some (String_value (Target data))
  else if String.eqb name "remote_host" then Some (String_value (RemoteHost data))
  else if String.eqb name "remote_port" then Some (Int64_value (RemotePort data))
  else if String.eqb name "local_port" then Some (Int64_value (LocalPort data))
  else if String.eqb name "region" then Some (String_value (Region data))
  else if String.eqb name "id" then Some (String_value (Id data))
  else None.

(** func (d *SSMRemoteTunnelDataSource) Configure *)
Definition SSMRemoteTunnelDataSource_Configure (d : SSMRemoteTunnelDataSource)
    (req : ConfigureRequest) (resp : Response)
  : SSMRemoteTunnelDataSource * Response :=
  match ProviderData req with
  | any_nil => (d, resp)
  | any_TunnelTracker tracker => ({| DataSource_tracker := tracker |}, resp)
  | any_other T =>
      (d, resp_AddError resp "Unexpected Data Source Configure Type" (Sprintf_Expected T))
  end.

(** *** What a trace shows *)

Inductive invoked : Type :=
| StartTunnel_call (id target remoteHost : string) (remotePort localPort : Z)
                   (region : string)
| Tunnels_call (id : string)
| select_call (tunnelInfo : TunnelInfo)
| State_Set_call (data : SSMRemoteTunnelDataSourceModel).

Definition invoked_of (ev : Event Call) : invoked :=
  match ev with
  | Ev e _ =>
      match e with
      | tracker_StartTunnel id target remoteHost remotePort localPort region =>
          StartTunnel_call id target remoteHost remotePort localPort region
      | tracker_Tunnels id => Tunnels_call id
      | select tunnelInfo => select_call tunnelInfo
      | State_Set data => State_Set_call data
      end
  end.

Definition calls {R W : Type} (h : Handler Call W) (p : Prog Call R) (w : W)
  : list invoked :=
  invoked_of <$> trace_of h p w.

(** The models handed to [resp.State.Set], in order. *)
Definition persisted (cs : list invoked) : list SSMRemoteTunnelDataSourceModel :=
  omap (fun c => match c with State_Set_call data => Some data | _ => None end) cs.

Definition start_call (data : SSMRemoteTunnelDataSourceModel) : invoked :=
  StartTunnel_call (ValueString (Id data)) (ValueString (Target data))
    (ValueString (RemoteHost data)) (ValueInt64 (RemotePort data))
    (ValueInt64 (LocalPort data)) (ValueString (Region data)).

(** The three diagnostics of [Read]. *)
Definition start_failed (err : error) : Diagnostic :=
  NewErrorDiagnostic "Failed to start remote tunnel" ("Error: " ++ Error err).

Definition tunnel_not_found : Diagnostic :=
  NewErrorDiagnostic "Tunnel not found"
    "The requested tunnel does not exist in the tracker.".

Definition cancelled : Diagnostic :=
  NewErrorDiagnostic "Context cancelled or timed out"
    "The operation was cancelled or timed out before the tunnel became ready.".

Definition start_diagnostic (err : option error) (diags : Diagnostics) : Prop :=
  match err with
  | Some err => In (start_failed err) diags
  | None => True
  end.

(** A scripted environment: the tracker and the [select] answer as given,
    [State.Set] succeeds. *)
Definition scripted (err : option error) (found : option TunnelInfo)
    (fired : option select_case) : Handler Call unit :=
  fun X e w =>
    match e in Call X return X * unit with
    | tracker_StartTunnel _ _ _ _ _ _ => (err, w)
    | tracker_Tunnels _ => (found, w)
    | select _ => (fired, w)
    | State_Set _ => ([], w)
    end.

(** The EKS tunnel of examples/resources/awsssmtunnels_remote_tunnel/resource.tf. *)
Definition eks_config : SSMRemoteTunnelDataSourceModel :=
  mkModel (NewStringValue "i-123456789") (NewStringValue "eks.example.internal")
    (NewInt64Value 443) (NewInt64Value 16534) (NewStringValue "us-east-1")
    StringNull.

Definition read_eks : ReadRequest :=
  {| ReadRequest_Config := mkData eks_config [] |}.

Definition empty_resp : Response := mkResponse [].

Definition launch_failed : error := errorString "session process exited".

End SSMRemoteTunnel.

(** ** The tunnel tracker *)

Module Tracker.

(** Modelled from the spec: the tracker ([TunnelTracker], its registry and
    [StartTunnel]) is declared outside the source files at hand, which only
    call it.  The definitions of this module follow the spec's data model
    and the eight steps of its [StartTunnel], one atomic transition for each
    part the spec runs under the registry lock or as one call to a
    collaborator; concurrent callers are interleaved by a schedule. *)
Record TunnelRequest : Type := mkRequest
  { target : string;
    remoteHost : string;
    remotePort : Z;
    localPort : Z;
    region : string }.

Inductive State : Type := Starting | Ready | Failed.

(** A registry entry.  Its readiness notification has fired exactly when
    the state is no longer [Starting]. *)
Record TunnelInfo : Type := mkInfo
  { identity : string;
    request : TunnelRequest;
    assignedHost : string;
    assignedPort : Z;
    state : State;
    lastError : option error }.

Record Snapshot : Type := mkSnapshot
  { snap_identity : string;
    snap_localHost : string;
    snap_localPort : Z }.

Definition snapshot (e : TunnelInfo) : Snapshot :=
  mkSnapshot (identity e) (assignedHost e) (assignedPort e).

Inductive result : Type :=
| Ok (snap : Snapshot)
| Err (err : error).

(** The error a caller gets when its context ends while it waits. *)
Definition ctx_Canceled : error := errorString "context canceled".

(** Where a caller of [StartTunnel] stands.  Handles name registry entries:
    a caller keeps the entry it found or created even when the registry
    later maps the identity to a newer one. *)
Inductive pc : Type :=
| AtLookup
| Waiting (h : nat)
| Resolving (h : nat)
| Launching (h : nat) (port : Z)
| InFlight (h : nat) (port : Z)
| Done (r : result).

Record caller : Type := mkCaller
  { c_identity : string;
    c_request : TunnelRequest;
    c_pc : pc }.

(** One launch of a session process by the Session Launcher. *)
Record launch : Type := mkLaunch
  { l_identity : string;
    l_handle : nat;
    l_port : Z }.

Record system : Type := mkSystem
  { registry : gmap string nat;
    entries : list TunnelInfo;
    launches : list launch;
    callers : list caller }.

(** What the scheduler and the collaborators decide at a step. *)
Inductive choice : Type :=
| Proceed
| Allocator (r : Z + error)
| Launcher (r : string + error)
| ctx_Done.

Definition at_pc (s : system) (i : nat) (c : caller) (p : pc) : list caller :=
  <[i := mkCaller (c_identity c) (c_request c) p]> (callers s).

Definition with_pc (s : system) (i : nat) (c : caller) (p : pc) : system :=
  mkSystem (registry s) (entries s) (launches s) (at_pc s i c p).

Definition new_entry (c : caller) : TunnelInfo :=
  mkInfo (c_identity c) (c_request c) "" 0 Starting None.

Definition set_Ready (e : TunnelInfo) (host : string) (port : Z) : TunnelInfo :=
  mkInfo (identity e) (request e) host port Ready None.

Definition set_Failed (e : TunnelInfo) (err : error) : TunnelInfo :=
  mkInfo (identity e) (request e) (assignedHost e) (assignedPort e) Failed (Some err).

(** Steps 4 and 5: a new [Starting] entry takes the identity's place in the
    registry (a [Failed] one is evicted by it) and this caller starts it. *)
Definition fresh_start (s : system) (i : nat) (c : caller) : system :=
  let h := length (entries s) in
  mkSystem (<[c_identity c := h]> (delete (c_identity c) (registry s)))
           (entries s ++ [new_entry c])%list
           (launches s)
           (at_pc s i c (Resolving h)).

(** Steps 1 to 5, under the registry lock. *)
Definition lookup_or_insert (s : system) (i : nat) (c : caller) : option system :=
  match registry s !! c_identity c with
  | None => Some (fresh_start s i c)
  | Some h =>
      match entries s !! h with
      | None => None
      | Some e =>
          match state e with
          | Ready => Some (with_pc s i c (Done (Ok (snapshot e))))
          | Starting => Some (with_pc s i c (Waiting h))
          | Failed => Some (fresh_start s i c)
          end
      end
  end.

(** Step 3, after the lock is released: the waiter returns once the
    readiness of the entry it found has fired. *)
Definition wake (s : system) (i : nat) (c : caller) (h : nat) : option system :=
  match entries s !! h with
  | None => None
  | Some e =>
      match state e, lastError e with
      | Ready, _ => Some (with_pc s i c (Done (Ok (snapshot e))))
      | Failed, Some err => Some (with_pc s i c (Done (Err err)))
      | _, _ => None
      end
  end.

(** Steps 6 and 8 on failure: the entry becomes [Failed] with the error. *)
Definition fail (s : system) (i : nat) (c : caller) (h : nat) (err : error)
  : option system :=
  match entries s !! h with
  | None => None
  | Some e =>
      Some (mkSystem (registry s) (<[h := set_Failed e err]> (entries s))
              (launches s) (at_pc s i c (Done (Err err))))
  end.

(** Step 8 on success. *)
Definition succeed (s : system) (i : nat) (c : caller) (h : nat)
    (host : string) (port : Z) : option system :=
  match entries s !! h with
  | None => None
  | Some e =>
      let e' := set_Ready e host port in
      Some (mkSystem (registry s) (<[h := e']> (entries s))
              (launches s) (at_pc s i c (Done (Ok (snapshot e')))))
  end.

(** Modelled from the spec: one step of the [StartTunnel] call of caller
    [i], chosen by the scheduler, with the answer of the collaborator the
    step calls. *)
Definition step (s : system) (i : nat) (ch : choice) : option system :=
  match callers s !! i with
  | None => None
  | Some c =>
      match c_pc c, ch with
      | AtLookup, Proceed => lookup_or_insert s i c
      | Waiting h, Proceed => wake s i c h
      | Waiting h, ctx_Done => Some (with_pc s i c (Done (Err ctx_Canceled)))
      | Resolving h, Proceed =>
          (* step 6 with a port in the request *)
          if localPort (c_request c) =? 0 then None
          else Some (with_pc s i c (Launching h (localPort (c_request c))))
      | Resolving h, Allocator r =>
          (* step 6 through the Port Allocator *)
          if localPort (c_request c) =? 0 then
            match r with
            | inl port => Some (with_pc s i c (Launching h port))
            | inr err => fail s i c h err
            end
          else None
      | Launching h port, Proceed =>
          (* step 7: the Session Launcher starts the session process *)
          Some (mkSystem (registry s) (entries s)
                  (launches s ++ [mkLaunch (c_identity c) h port])%list
                  (at_pc s i c (InFlight h port)))
      | InFlight h port, Launcher (inl host) => succeed s i c h host port
      | InFlight h port, Launcher (inr err) => fail s i c h err
      | _, _ => None
      end
  end.

Definition schedule : Type := list (nat * choice).

Fixpoint run (sched : schedule) (s : system) : option system :=
  match sched with
  | [] => Some s
  | (i, ch) :: sched =>
      match step s i ch with
      | None => None
      | Some s' => run sched s'
      end
  end.

(** [StartTunnel] calls issued on an empty registry, none has run yet. *)
Definition init (calls : list (string * TunnelRequest)) : system :=
  mkSystem ∅ [] [] ((fun call => mkCaller (fst call) (snd call) AtLookup) <$> calls).

Definition reachable (calls : list (string * TunnelRequest)) (s : system) : Prop :=
  exists sched, run sched (init calls) = Some s.

(** The launches made for an identity, and whether an attempt for it has
    failed. *)
Definition launches_of (id : string) (s : system) : list launch :=
  filter (fun l => l_identity l = id) (launches s).


Definition returned (s : system) (i : nat) (id : string) (r : result) : Prop :=
  exists c, callers s !! i = Some c /\ c_identity c = id /\ c_pc c = Done r.

(** *** The step relation and its invariant *)

(** The caller is starting the entry [h]: it has inserted it and has not yet
    moved it out of [Starting]. *)
Definition owns (p : pc) (h : nat) : Prop :=
  match p with
  | Resolving h' | Launching h' _ | InFlight h' _ => h' = h
  | _ => False
  end.

(** The caller is starting [h] and has not invoked the Session Launcher. *)
Definition unlaunched (p : pc) (h : nat) : Prop :=
  match p with
  | Resolving h' | Launching h' _ => h' = h
  | _ => False
  end.

Definition launched_handles (s : system) : list nat := l_handle <$> launches s.




(** The steps of caller [i], standing at [c], as a relation: each case of
    [step] with what it found in the registry. *)
Inductive transition (s : system) (i : nat) (c : caller) : system -> Prop :=
| t_ready h e :
    c_pc c = AtLookup -> registry s !! c_identity c = Some h ->
    entries s !! h = Some e -> state e = Ready ->
    transition s i c (with_pc s i c (Done (Ok (snapshot e))))
| t_wait h e :
    c_pc c = AtLookup -> registry s !! c_identity c = Some h ->
    entries s !! h = Some e -> state e = Starting ->
    transition s i c (with_pc s i c (Waiting h))
| t_insert :
    c_pc c = AtLookup -> registry s !! c_identity c = None ->
    transition s i c (fresh_start s i c)
| t_evict h e :
    c_pc c = AtLookup -> registry s !! c_identity c = Some h ->
    entries s !! h = Some e -> state e = Failed ->
    transition s i c (fresh_start s i c)
| t_wake_ready h e :
    c_pc c = Waiting h -> entries s !! h = Some e -> state e = Ready ->
    transition s i c (with_pc s i c (Done (Ok (snapshot e))))
| t_wake_failed h e err :
    c_pc c = Waiting h -> entries s !! h = Some e -> state e = Failed ->
    lastError e = Some err ->
    transition s i c (with_pc s i c (Done (Err err)))
| t_cancel h :
    c_pc c = Waiting h ->
    transition s i c (with_pc s i c (Done (Err ctx_Canceled)))
| t_port h port :
    c_pc c = Resolving h ->
    transition s i c (with_pc s i c (Launching h port))
| t_launch h port :
    c_pc c = Launching h port ->
    transition s i c
      (mkSystem (registry s) (entries s)
         (launches s ++ [mkLaunch (c_identity c) h port])%list
         (at_pc s i c (InFlight h port)))
| t_fail h e err :
    owns (c_pc c) h -> entries s !! h = Some e ->
    transition s i c
      (mkSystem (registry s) (<[h := set_Failed e err]> (entries s))
         (launches s) (at_pc s i c (Done (Err err))))
| t_succeed h port e host :
    c_pc c = InFlight h port -> entries s !! h = Some e ->
    transition s i c
      (mkSystem (registry s) (<[h := set_Ready e host port]> (entries s))
         (launches s) (at_pc s i c (Done (Ok (snapshot (set_Ready e host port)))))).

(** What every reachable system satisfies. *)
Record invariant (s : system) : Prop := mkInvariant
  { (* the registry maps an identity to an entry of that identity *)
    inv_registry : forall id h,
      registry s !! id = Some h ->
      exists e, entries s !! h = Some e /\ identity e = id;
    (* an entry that has not failed is the one the registry holds *)
    inv_current : forall h e,
      entries s !! h = Some e -> state e <> Failed ->
      registry s !! identity e = Some h;
    (* a caller starts an entry of its identity, still [Starting] *)
    inv_owner : forall i c h,
      callers s !! i = Some c -> owns (c_pc c) h ->
      exists e, entries s !! h = Some e /\ state e = Starting
                /\ identity e = c_identity c;
    (* and it is the only one that starts it *)
    inv_owner_unique : forall i j ci cj h,
      callers s !! i = Some ci -> callers s !! j = Some cj ->
      owns (c_pc ci) h -> owns (c_pc cj) h -> i = j;
    (* no entry was launched twice *)
    inv_launched_once : NoDup (launched_handles s);
    inv_launch : forall l,
      l ∈ launches s ->
      exists e, entries s !! l_handle l = Some e /\ identity e = l_identity l;
    inv_unlaunched : forall i c h,
      callers s !! i = Some c -> unlaunched (c_pc c) h ->
      h ∉ launched_handles s;
    inv_inflight : forall i c h port,
      callers s !! i = Some c -> c_pc c = InFlight h port ->
      mkLaunch (c_identity c) h port ∈ launches s;
    (* a [Ready] entry was launched, on its port *)
    inv_ready : forall h e,
      entries s !! h = Some e -> state e = Ready ->
      mkLaunch (identity e) h (assignedPort e) ∈ launches s;
    (* a caller that returned a snapshot returned the registry's entry *)
    inv_ok : forall i c snap,
      callers s !! i = Some c -> c_pc c = Done (Ok snap) ->
      exists h e, registry s !! c_identity c = Some h
                  /\ entries s !! h = Some e /\ state e = Ready
                  /\ snapshot e = snap;
    (* a caller that returned an error was cancelled or returned the error
       of a failed entry of its identity *)
    inv_err : forall i c err,
      callers s !! i = Some c -> c_pc c = Done (Err err) ->
      err = ctx_Canceled \/ exists h e, entries s !! h = Some e
                                        /\ identity e = c_identity c
                                        /\ state e = Failed
                                        /\ lastError e = Some err;
    inv_waiting : forall i c h,
      callers s !! i = Some c -> c_pc c = Waiting h ->
      exists e, entries s !! h = Some e /\ identity e = c_identity c }.

(** *** Example runs *)

(** The request of the spec's scenarios, made twice under identity [t1]. *)
Definition db_request : TunnelRequest :=
  mkRequest "i-abc" "db.internal" 5432 0 "us-east-1".

Definition two_calls : list (string * TunnelRequest) :=
  [("t1", db_request); ("t1", db_request)].

(** The first caller starts the tunnel on port 18123, the second finds it
    [Starting] and waits for it. *)
Definition shared_start : schedule :=
  [(0%nat, Proceed); (1%nat, Proceed); (0%nat, Allocator (inl 18123));
   (0%nat, Proceed); (0%nat, Launcher (inl "127.0.0.1")); (1%nat, Proceed)].



(** The first caller runs alone until its tunnel is [Ready]; the second has
    not looked the identity up yet. *)
Definition first_alone : schedule :=
  [(0%nat, Proceed); (0%nat, Allocator (inl 18123)); (0%nat, Proceed);
   (0%nat, Launcher (inl "127.0.0.1"))].

Definition final (sched : schedule) : system :=
  match run sched (init two_calls) with
  | Some s => s
  | None => init two_calls
  end.

Definition ready_entry : TunnelInfo :=
  mkInfo "t1" db_request "127.0.0.1" 18123 Ready None.

(** Where the callers stand at the end of a run, and how many sessions were
    launched for an identity. *)
Definition results (s : system) : list pc := c_pc <$> callers s.

Definition launch_count (id : string) (s : system) : nat :=
  length (launches_of id s).

End Tracker.

(** * Properties *)

(** ** Integers and diagnostics *)

Lemma intSize_cases {arch : GOARCH} :
  (intSize = 32 /\ 2 ^ (intSize - 1) = 2 ^ 31 /\ 2 ^ intSize = 2 ^ 32)
  \/ (intSize = 64 /\ 2 ^ (intSize - 1) = 2 ^ 63 /\ 2 ^ intSize = 2 ^ 64).
Proof. destruct arch; [left | right]; repeat split. Qed.

(** A conversion to [int] changes no value that fits [int]. *)
Lemma int_in_range {arch : GOARCH} (z : Z) : in_int z -> int z = z.
Proof.
  unfold in_int, int, wrap. intros Hz.
  destruct intSize_cases as [(_ & Hh & Hp) | (_ & Hh & Hp)];
    rewrite Hh, Hp in *; rewrite Z.mod_small; lia.
Qed.

Lemma int_is_in_range {arch : GOARCH} (z : Z) : in_int (int z).
Proof.
  unfold in_int, int, wrap.
  destruct intSize_cases as [(_ & Hh & Hp) | (_ & Hh & Hp)]; rewrite Hh, Hp.
  - pose proof (Z.mod_pos_bound (z + 2 ^ 31) (2 ^ 32) ltac:(lia)). lia.
  - pose proof (Z.mod_pos_bound (z + 2 ^ 63) (2 ^ 64) ltac:(lia)). lia.
Qed.

Lemma in_int_in_int64 {arch : GOARCH} (z : Z) : in_int z -> in_int64 z.
Proof.
  unfold in_int, in_int64.
  destruct intSize_cases as [(_ & Hh & _) | (_ & Hh & _)]; rewrite Hh; lia.
Qed.

Lemma int64_in_range (z : Z) : in_int64 z -> int64 z = z.
Proof.
  unfold in_int64, int64, wrap. intros Hz.
  change (2 ^ (64 - 1)) with (2 ^ 63). rewrite Z.mod_small; lia.
Qed.

(** On a 64-bit platform every [int64] fits [int]. *)
Lemma in_int_arch64 (z : Z) : in_int64 z -> in_int (arch := arch64) z.
Proof. exact (fun H => H). Qed.

Lemma Diagnostic_Equal_eq (a b : Diagnostic) : Diagnostic_Equal a b = true -> a = b.
Proof.
  destruct a as [sa ma da], b as [sb mb db]. unfold Diagnostic_Equal. simpl.
  rewrite !andb_true_iff, !String.eqb_eq.
  intros [[Hs ->] ->]. destruct sa, sb; simpl in Hs; congruence.
Qed.

Lemma Contains_In (diags : Diagnostics) (d : Diagnostic) :
  Contains diags d = true -> In d diags.
Proof.
  unfold Contains. rewrite existsb_exists.
  intros [x [Hx Heq]]. apply Diagnostic_Equal_eq in Heq. now subst.
Qed.

Lemma Append_keeps (new diags : Diagnostics) (d : Diagnostic) :
  In d diags -> In d (Append diags new).
Proof.
  unfold Append. revert diags.
  induction new as [|n new IH]; simpl; intros diags Hd; [assumption|].
  apply IH. destruct (Contains diags n); [assumption|].
  apply in_or_app. now left.
Qed.

Lemma Append_adds (new diags : Diagnostics) (d : Diagnostic) :
  In d new -> In d (Append diags new).
Proof.
  unfold Append. revert diags.
  induction new as [|n new IH]; simpl; intros diags Hd; [contradiction|].
  destruct Hd as [-> | Hd]; [|now apply IH].
  apply (Append_keeps new).
  destruct (Contains diags d) eqn:Hc; [now apply Contains_In|].
  apply in_or_app. right. now left.
Qed.

Lemma AddError_In (diags : Diagnostics) (summary detail : string) :
  In (NewErrorDiagnostic summary detail) (AddError diags summary detail).
Proof. unfold AddError. apply Append_adds. now left. Qed.

Lemma HasError_In (diags : Diagnostics) (d : Diagnostic) :
  In d diags -> is_error d = true -> HasError diags = true.
Proof. intros Hin Hd. unfold HasError. apply existsb_exists. eauto. Qed.

Lemma HasError_AddError (diags : Diagnostics) (summary detail : string) :
  HasError (AddError diags summary detail) = true.
Proof.
  apply (HasError_In _ (NewErrorDiagnostic summary detail)).
  - apply AddError_In.
  - reflexivity.
Qed.


(** ** [strings.Split] and [strconv.Atoi] *)

Lemma Split_nonempty (s : string) (sep : ascii) : strings_Split s sep <> [].
Proof.
  destruct s as [|c s]; simpl; [discriminate|].
  destruct (Ascii.eqb c sep); [discriminate|].
  destruct (strings_Split s sep); discriminate.
Qed.

(** Joining the fields with the separator gives the string back. *)
Lemma Join_Split (s : string) (sep : ascii) :
  strings_Join (strings_Split s sep) sep = s.
Proof.
  induction s as [|c s IH]; simpl; [reflexivity|].
  destruct (Ascii.eqb c sep) eqn:E.
  - apply Ascii.eqb_eq in E. subst c.
    destruct (strings_Split s sep) as [|f fs] eqn:Hs.
    + now apply Split_nonempty in Hs.
    + change (strings_Join (EmptyString :: f :: fs) sep)
        with (String sep (strings_Join (f :: fs) sep)).
      now rewrite IH.
  - destruct (strings_Split s sep) as [|f fs] eqn:Hs.
    + now apply Split_nonempty in Hs.
    + rewrite <- IH. destruct fs; reflexivity.
Qed.

(** No field holds the separator. *)
Lemma Split_fields (s : string) (sep : ascii) :
  Forall (fun field => occurs sep field = false) (strings_Split s sep).
Proof.
  induction s as [|c s IH]; simpl.
  - repeat constructor.
  - destruct (Ascii.eqb c sep) eqn:E.
    + constructor; [reflexivity|assumption].
    + destruct (strings_Split s sep) as [|f fs]; [repeat constructor; simpl; now rewrite E|].
      inversion IH; subst. constructor; [|assumption].
      simpl. now rewrite E.
Qed.

(** There is one field more than separators. *)
Lemma Split_length (s : string) (sep : ascii) :
  length (strings_Split s sep) = S (count_byte sep s).
Proof.
  induction s as [|c s IH]; simpl; [reflexivity|].
  destruct (Ascii.eqb c sep); simpl.
  - now rewrite IH.
  - destruct (strings_Split s sep); simpl in *; congruence.
Qed.

Example Split_example :
  strings_Split "i-1|db|5432|0||us-east-1" "|" = ["i-1"; "db"; "5432"; "0"; ""; "us-east-1"].
Proof. reflexivity. Qed.
Example Split_empty : strings_Split "" "|" = [""].
Proof. reflexivity. Qed.

Example Atoi_443 (arch : GOARCH) : strconv_Atoi "443" = (443, None).
Proof. destruct arch; reflexivity. Qed.
Example Atoi_neg (arch : GOARCH) : strconv_Atoi "-17638" = (-17638, None).
Proof. destruct arch; reflexivity. Qed.
Example Atoi_word (arch : GOARCH) : strconv_Atoi "https" = (0, Some ErrSyntax).
Proof. destruct arch; reflexivity. Qed.
Example Atoi_empty (arch : GOARCH) : strconv_Atoi "" = (0, Some ErrSyntax).
Proof. destruct arch; reflexivity. Qed.
Example Atoi_sign_only (arch : GOARCH) : strconv_Atoi "+" = (0, Some ErrSyntax).
Proof. destruct arch; reflexivity. Qed.
Example Atoi_max :
  strconv_Atoi (arch := arch64) "9223372036854775807" = (2 ^ 63 - 1, None).
Proof. vm_compute. reflexivity. Qed.
Example Atoi_min :
  strconv_Atoi (arch := arch64) "-9223372036854775808" = (- 2 ^ 63, None).
Proof. vm_compute. reflexivity. Qed.
Example Atoi_big :
  strconv_Atoi (arch := arch64) "9223372036854775808" = (2 ^ 63 - 1, Some ErrRange).
Proof. vm_compute. reflexivity. Qed.
Example Atoi_max32 : strconv_Atoi (arch := arch32) "2147483647" = (2 ^ 31 - 1, None).
Proof. vm_compute. reflexivity. Qed.
Example Atoi_min32 : strconv_Atoi (arch := arch32) "-2147483648" = (- 2 ^ 31, None).
Proof. vm_compute. reflexivity. Qed.
Example Atoi_big32 :
  strconv_Atoi (arch := arch32) "2147483648" = (2 ^ 31 - 1, Some ErrRange).
Proof. vm_compute. reflexivity. Qed.
Example Atoi_small32 :
  strconv_Atoi (arch := arch32) "-2147483649" = (- 2 ^ 31, Some ErrRange).
Proof. vm_compute. reflexivity. Qed.
Example Atoi_long_word (arch : GOARCH) :
  strconv_Atoi "not-a-port-number-at-all" = (0, Some ErrSyntax).
Proof. destruct arch; vm_compute; reflexivity. Qed.
(** [ParseUint] gives up at the first overflow, before it reaches the [x]. *)
Example Atoi_overflow_then_letter :
  strconv_Atoi (arch := arch64) "99999999999999999999x" = (2 ^ 63 - 1, Some ErrRange).
Proof. vm_compute. reflexivity. Qed.
Example Atoi_overflow_then_letter32 :
  strconv_Atoi (arch := arch32) "99999999999x" = (2 ^ 31 - 1, Some ErrRange).
Proof. vm_compute. reflexivity. Qed.

Lemma nondigit_byte (c : ascii) :
  (9 <? uint8 (byte c - 48)) = negb (is_digit c).
Proof.
  destruct c as [[] [] [] [] [] [] [] []]; vm_compute; reflexivity.
Qed.


Lemma int_0 {arch : GOARCH} : int 0 = 0.
Proof. destruct arch; reflexivity. Qed.

Lemma int64_0 : int64 0 = 0.
Proof. reflexivity. Qed.

(** Whether a string of the given length takes the fast path of [Atoi]. *)
Lemma Atoi_fast_path {arch : GOARCH} (s : string) :
  (intSize =? 32) && ((0 <? Z.of_nat (String.length s))
                      && (Z.of_nat (String.length s) <? 10))
  || (intSize =? 64) && ((0 <? Z.of_nat (String.length s))
                         && (Z.of_nat (String.length s) <? 19))
  = (0 <? Z.of_nat (String.length s))
    && (Z.of_nat (String.length s) <? Z.of_nat Atoi_fast_bytes).
Proof.
  destruct arch; cbn [intSize Atoi_fast_bytes];
    change (32 =? 32) with true; change (64 =? 64) with true;
    change (32 =? 64) with false; change (64 =? 32) with false;
    cbn [andb orb]; rewrite ?orb_false_r; reflexivity.
Qed.






(** ** The remote_tunnel data source and resource *)

Module RemoteTunnelProps.
Import RemoteTunnel.

(** Runs a method symbolically: every answer of the handler becomes a
    variable, every branch on an answer a case. *)
Ltac answer h :=
  match goal with
  | |- context [h ?X ?e ?w] =>
      let x := fresh "x" in let w' := fresh "w" in let E := fresh "E" in
      destruct (h X e w) as [x w'] eqn:E; simpl in *
  end.

Ltac branch :=
  match goal with
  | |- context [match snd ?r with _ => _ end] => destruct r as [? [?|]]; simpl in *
  | |- context [match fst ?r with _ => _ end] => destruct r as [[?|] ?]; simpl in *
  | |- context [match ?o with Some _ => _ | None => _ end] =>
      destruct o; simpl in *
  end.

Ltac unfold_method :=
  unfold calls, trace_of, outcome_of, world_of, method,
    RemoteTunnelDataSource_Read, RemoteTunnelResource_Create,
    RemoteTunnelResource_Read, RemoteTunnelResource_Update.

Section Methods.
Context {W : Type} (h : Handler Call W) {arch : GOARCH}.

(** The calls of a method that decoded its request: [StartTunnel] first when
    the local port, converted to [int], is not zero, [FindOpenPort] first
    when it is. *)
Lemma calls_after_decoding (op : start_op) (resp : Response) (w : W) :
  let data := Get_data (decoded op) in
  let port := int (ValueInt64 (LocalPort data)) in
  decodes op resp ->
  (port <> 0 ->
   exists rest,
     calls h (method op resp) w = start_call data port :: rest
     /\ forallb other_call rest = true)
  /\ (port = 0 ->
      let r := fst (h _ (ports_FindOpenPort 16000 26000) w) in
      exists rest,
        calls h (method op resp) w = FindOpenPort_call 16000 26000 :: rest
        /\ match snd r with
           | None =>
               exists rest',
                 rest = start_call data (fst r) :: rest'
                 /\ forallb other_call rest' = true
           | Some _ => rest = []
           end).
Proof.
  intros data port Hdec. unfold decodes in Hdec.
  split; intros Hport.
  - destruct op as [req|req|req|req]; simpl in data, Hdec; unfold_method;
      rewrite Hdec; fold data; fold port;
      (destruct (port =? 0) eqn:E; [lia|]); simpl;
      answer h; repeat branch; repeat (answer h; repeat branch);
      eexists; split; reflexivity.
  - destruct op as [req|req|req|req]; simpl in data, Hdec; unfold_method;
      rewrite Hdec; fold data; fold port; rewrite Hport; simpl;
      answer h; repeat branch; repeat (answer h; repeat branch);
      eexists; (split; [reflexivity|]); try reflexivity;
      eexists; split; reflexivity.
Qed.

(** C3, as amended: the requested local port is converted to [int] first.
    When the converted port is not zero it goes to [StartTunnel], with no
    call to [FindOpenPort]; when it is zero the first call is
    [FindOpenPort(16000, 26000)], and when that succeeds [StartTunnel] comes
    next, with the port found.  The converted port is the requested one
    whenever that fits [int], as every port does where [int] has 64 bits. *)
Theorem local_port_resolution (op : start_op) (resp : Response) (w : W) :
  let data := Get_data (decoded op) in
  let requested := ValueInt64 (LocalPort data) in
  let port := int requested in
  decodes op resp ->
  (port <> 0 ->
   exists rest,
     calls h (method op resp) w = start_call data port :: rest
     /\ forallb other_call rest = true)
  /\ (port = 0 ->
      let r := fst (h _ (ports_FindOpenPort 16000 26000) w) in
      exists rest,
        calls h (method op resp) w = FindOpenPort_call 16000 26000 :: rest
        /\ match snd r with
           | None =>
               exists rest',
                 rest = start_call data (fst r) :: rest'
                 /\ forallb other_call rest' = true
           | Some _ => rest = []
           end)
  /\ (in_int requested -> port = requested)
  /\ (intSize = 64 -> in_int64 requested -> port = requested).
Proof.
  intros data requested port Hdec.
  destruct (calls_after_decoding op resp w Hdec) as [Hgiven Hzero].
  split; [exact Hgiven|]. split; [exact Hzero|]. split.
  - apply int_in_range.
  - intros Hsize Hrange. apply int_in_range. unfold in_int. rewrite Hsize. exact Hrange.
Qed.

(** C4: when the local port is zero and [FindOpenPort] fails, the method
    makes no further call, [StartTunnel] in particular, and returns with the
    allocator's error in its diagnostics. *)
Theorem allocation_failure_reported (op : start_op) (resp : Response) (w w' : W)
    (found : Z) (err : error) :
  decodes op resp ->
  ValueInt64 (LocalPort (Get_data (decoded op))) = 0 ->
  h _ (ports_FindOpenPort 16000 26000) w = ((found, Some err), w') ->
  calls h (method op resp) w = [FindOpenPort_call 16000 26000]
  /\ existsb is_StartTunnel (calls h (method op resp) w) = false
  /\ world_of h (method op resp) w = w'
  /\ exists resp',
       outcome_of h (method op resp) w = Returned resp'
       /\ In (NewErrorDiagnostic "Failed to find open port" ("Error: " ++ Error err))
            (resp_Diagnostics resp')
       /\ resp_HasError resp' = true.
Proof.
  intros Hdec Hport Hfind. unfold decodes in Hdec.
  destruct op as [req|req|req|req]; simpl in Hdec, Hport; unfold_method;
    rewrite Hdec, Hport, int_0; simpl; rewrite Hfind; simpl;
    (repeat split; [eexists; split; [reflexivity|]]);
    (split; [apply AddError_In | apply HasError_AddError]).
Qed.

(** C5: a [Create], [Read] or [Update] of the resource that returns without
    an error diagnostic has asked for exactly one UUID and has set exactly
    one state, whose [Id] is that UUID whatever [Id] the request held; the
    persisted identity differs from the previous one as soon as the UUID
    does. *)
Theorem fresh_identity_persisted (op : start_op) (resp resp' : Response) (w : W) :
  is_resource_op op = true ->
  outcome_of h (method op resp) w = Returned resp' ->
  resp_HasError resp' = false ->
  exists id data',
    generated (trace_of h (method op resp) w) = [id]
    /\ persisted (calls h (method op resp) w) = [data']
    /\ Id data' = NewStringValue id
    /\ (ValueString (Id (Get_data (decoded op))) <> id ->
        Id data' <> Id (Get_data (decoded op))).
Proof.
  intros Hop Hout Hok.
  destruct op as [req|req|req|req]; try discriminate Hop; clear Hop;
    revert Hout; unfold_method; simpl decoded;
    (destruct (resp_HasError (resp_Append resp (Get_diags _))) eqn:Hdec;
     [simpl; intros [= <-]; congruence|]);
    (destruct (int (ValueInt64 (LocalPort _)) =? 0); simpl;
     repeat (answer h; repeat branch); simpl; intros [= <-];
     try (unfold resp_HasError, resp_AddError in Hok; simpl in Hok;
          rewrite HasError_AddError in Hok; discriminate Hok));
    (eexists; eexists; repeat split; try reflexivity;
     simpl; intros Hne Heq; apply Hne; rewrite <- Heq; reflexivity).
Qed.

(** C7: [Delete] calls no collaborator and leaves the world, the tracker and
    its sessions included, as it found it; it only appends the diagnostics
    of decoding the prior state. *)
Theorem Delete_tears_nothing_down (req : DeleteRequest) (resp : Response) (w : W) :
  run h (RemoteTunnelResource_Delete req resp) w
  = (Returned (resp_Append resp (Get_diags (DeleteRequest_State req))), w, []).
Proof.
  unfold RemoteTunnelResource_Delete.
  destruct (resp_HasError _); reflexivity.
Qed.

Lemma ImportState_rejects (req : ImportStateRequest) (resp : Response) (w : W) :
  length (strings_Split (ID req) "|") <> 6%nat ->
  run h (RemoteTunnelResource_ImportState req resp) w
  = (Returned (mkResponse (Append (resp_Diagnostics resp) [import_format_error])), w, []).
Proof.
  intros Hlen. unfold RemoteTunnelResource_ImportState.
  destruct (Z.of_nat (length (strings_Split (ID req) "|")) =? 6) eqn:E.
  - apply Z.eqb_eq in E. lia.
  - reflexivity.
Qed.

Lemma ImportState_accepts (req : ImportStateRequest) (resp : Response) (w : W)
    (target remoteHost remotePort localPort localHost region : string) :
  strings_Split (ID req) "|"
  = [target; remoteHost; remotePort; localPort; localHost; region] ->
  exists id diags w',
    run h (RemoteTunnelResource_ImportState req resp) w
    = (Returned resp, w',
       [Ev uuid_New_String id;
        Ev (State_Set (imported target remoteHost remotePort localPort localHost
                         region id)) diags]).
Proof.
  intros Hparts. unfold RemoteTunnelResource_ImportState. rewrite Hparts. simpl.
  repeat answer h. do 3 eexists. reflexivity.
Qed.

(** C6: an import ID is accepted exactly when it splits on '|' into six
    fields.  With any other number of fields the only effect is the format
    error: no call is made and the world is untouched.  With six, the state
    that is set holds them in the order target, remote host, remote port,
    local port, local host, region, the two ports through [Atoi]. *)
Theorem ImportState_six_fields (req : ImportStateRequest) (resp : Response) (w : W) :
  let parts := strings_Split (ID req) "|" in
  (length parts <> 6%nat ->
   trace_of h (RemoteTunnelResource_ImportState req resp) w = []
   /\ world_of h (RemoteTunnelResource_ImportState req resp) w = w
   /\ exists resp',
        outcome_of h (RemoteTunnelResource_ImportState req resp) w = Returned resp'
        /\ In import_format_error (resp_Diagnostics resp')
        /\ resp_HasError resp' = true)
  /\ (length parts = 6%nat ->
      outcome_of h (RemoteTunnelResource_ImportState req resp) w = Returned resp
      /\ exists target remoteHost remotePort localPort localHost region id,
           parts = [target; remoteHost; remotePort; localPort; localHost; region]
           /\ calls h (RemoteTunnelResource_ImportState req resp) w
              = [uuid_call;
                 State_Set_call (imported target remoteHost remotePort localPort
                                   localHost region id)]).
Proof.
  intros parts. split.
  - intros Hlen. unfold trace_of, world_of, outcome_of.
    rewrite (ImportState_rejects req resp w Hlen). cbn [fst snd].
    split; [reflexivity|]. split; [reflexivity|].
    eexists. split; [reflexivity|]. cbn [resp_Diagnostics]. split.
    + apply Append_adds. now left.
    + apply (HasError_In _ import_format_error); [|reflexivity].
      apply Append_adds. now left.
  - intros Hlen.
    destruct parts as [|a [|b [|c [|d [|e [|f [|g parts']]]]]]] eqn:Hparts;
      try discriminate Hlen.
    destruct (ImportState_accepts req resp w a b c d e f Hparts)
      as (id & diags & w' & Hrun).
    unfold outcome_of, calls, trace_of. rewrite Hrun. simpl.
    split; [reflexivity|]. exists a, b, c, d, e, f, id. split; reflexivity.
Qed.

(** C8, as amended: the methods check nothing.  When decoding leaves no
    error and the local port is given, or found by the allocator, the first
    call to the tracker is [StartTunnel] with the configured target, remote
    host and region exactly as they are, and with the remote port and the
    local port converted to [int], which changes neither when it fits
    [int]. *)
Theorem request_passed_unchecked (op : start_op) (resp : Response) (w : W) :
  let data := Get_data (decoded op) in
  let port := int (ValueInt64 (LocalPort data)) in
  let r := fst (h _ (ports_FindOpenPort 16000 26000) w) in
  decodes op resp ->
  (port = 0 -> snd r = None) ->
  find is_StartTunnel (calls h (method op resp) w)
  = Some (StartTunnel_call (ValueString (Id data)) (ValueString (Target data))
            (ValueString (RemoteHost data)) (int (ValueInt64 (RemotePort data)))
            (if port =? 0 then fst r else port) (ValueString (Region data)))
  /\ (in_int (ValueInt64 (RemotePort data)) ->
      int (ValueInt64 (RemotePort data)) = ValueInt64 (RemotePort data))
  /\ (in_int (ValueInt64 (LocalPort data)) -> port = ValueInt64 (LocalPort data))
  /\ (intSize = 64 ->
      in_int64 (ValueInt64 (RemotePort data)) ->
      in_int64 (ValueInt64 (LocalPort data)) ->
      int (ValueInt64 (RemotePort data)) = ValueInt64 (RemotePort data)
      /\ port = ValueInt64 (LocalPort data)).
Proof.
  intros data port r Hdec Halloc.
  destruct (calls_after_decoding op resp w Hdec) as [Hnz Hz].
  fold data port in Hnz, Hz. unfold start_call in Hnz, Hz.
  split; [|split; [apply int_in_range | split; [apply int_in_range|]]].
  - destruct (port =? 0) eqn:E.
    + apply Z.eqb_eq in E. destruct (Hz E) as (rest & -> & Hrest).
      fold r in Hrest. rewrite (Halloc E) in Hrest.
      destruct Hrest as (rest' & -> & _). reflexivity.
    + apply Z.eqb_neq in E. destruct (Hnz E) as (rest & -> & _). reflexivity.
  - intros Hsize Hr Hl.
    split; apply int_in_range; unfold in_int; rewrite Hsize; assumption.
Qed.




End Methods.

(** The examples below run on a 64-bit platform unless they say otherwise. *)
Section On_arch64.
#[local] Existing Instance arch64.

Lemma local_port_resolution_witness :
  decodes (create rds_config) empty_resp
  /\ exists rest,
       calls (scripted exhausted ready_at) (method (create rds_config) empty_resp) 0%nat
       = start_call rds_config 17638 :: rest
       /\ forallb other_call rest = true.
Proof.
  assert (Hdec : decodes (create rds_config) empty_resp) by reflexivity.
  split; [exact Hdec|].
  destruct (local_port_resolution (scripted exhausted ready_at)
              (create rds_config) empty_resp 0%nat Hdec) as [Hgiven _].
  apply Hgiven. discriminate.
Defined.

(** C3 fails where [int] has 32 bits: the requested local port 2^32 is not
    zero, yet [Create] asks the allocator for a port and hands that one,
    18123, to [StartTunnel]. *)
Lemma wide_local_port_is_reallocated :
  decodes (create wide_port_config) empty_resp
  /\ ValueInt64 (LocalPort wide_port_config) = 4294967296
  /\ kind_of <$> calls (scripted found_18123 ready_at)
                   (method (arch := arch32) (create wide_port_config) empty_resp) 0%nat
     = [to_allocator; to_tracker; to_uuid; to_state]
  /\ find is_StartTunnel
       (calls (scripted found_18123 ready_at)
          (method (arch := arch32) (create wide_port_config) empty_resp) 0%nat)
     = Some (StartTunnel_call "" "i-123456789" "db.example.internal" 5432 18123
               "us-east-1").
Proof. repeat split. Qed.

Lemma allocation_failure_reported_witness :
  calls (scripted exhausted ready_at) (method (create rds_config_auto) empty_resp) 0%nat
  = [FindOpenPort_call 16000 26000].
Proof.
  destruct (allocation_failure_reported (scripted exhausted ready_at)
              (create rds_config_auto) empty_resp 0%nat 0%nat 0
              (errorString "no open port found in range")) as [Hcalls _];
    [reflexivity | reflexivity | reflexivity | exact Hcalls].
Defined.

Lemma fresh_identity_persisted_witness :
  exists id data',
    generated (trace_of (scripted exhausted ready_at)
                 (method (create rds_config) empty_resp) 7%nat) = [id]
    /\ persisted (calls (scripted exhausted ready_at)
                    (method (create rds_config) empty_resp) 7%nat) = [data']
    /\ Id data' = NewStringValue id
    /\ (ValueString (Id (Get_data (decoded (create rds_config)))) <> id ->
        Id data' <> Id (Get_data (decoded (create rds_config)))).
Proof.
  apply (fresh_identity_persisted (scripted exhausted ready_at)
           (create rds_config) empty_resp empty_resp 7%nat);
    reflexivity.
Defined.

Lemma ImportState_six_fields_witness :
  trace_of (scripted exhausted ready_at)
    (RemoteTunnelResource_ImportState import_five empty_resp) 0%nat = []
  /\ exists target remoteHost remotePort localPort localHost region id,
       strings_Split (ID import_word) "|"
       = [target; remoteHost; remotePort; localPort; localHost; region]
       /\ calls (scripted exhausted ready_at)
            (RemoteTunnelResource_ImportState import_word empty_resp) 0%nat
          = [uuid_call;
             State_Set_call
               (imported target remoteHost remotePort localPort localHost region id)].
Proof.
  split.
  - destruct (ImportState_six_fields (scripted exhausted ready_at)
                import_five empty_resp 0%nat) as [Hreject _].
    apply Hreject. discriminate.
  - destruct (ImportState_six_fields (scripted exhausted ready_at)
                import_word empty_resp 0%nat) as [_ Haccept].
    destruct (Haccept eq_refl) as [_ Hcalls]. exact Hcalls.
Defined.

(** C8 fails: [Create] hands the tracker a request with an empty target, an
    empty remote host, remote port 0 and local port 70000. *)
Lemma unchecked_request_reaches_tracker :
  decodes (create unchecked_config) empty_resp
  /\ find is_StartTunnel
       (calls (scripted exhausted ready_at)
          (method (create unchecked_config) empty_resp) 0%nat)
     = Some (StartTunnel_call "" "" "" 0 70000 "us-east-1")
  /\ forallb satisfies_constraints
       (calls (scripted exhausted ready_at)
          (method (create unchecked_config) empty_resp) 0%nat) = false.
Proof. repeat split. Qed.

Lemma request_passed_unchecked_witness :
  find is_StartTunnel
    (calls (scripted exhausted ready_at)
       (method (create unchecked_config) empty_resp) 0%nat)
  = Some (StartTunnel_call "" "" "" 0 70000 "us-east-1").
Proof.
  destruct (request_passed_unchecked (scripted exhausted ready_at)
              (create unchecked_config) empty_resp 0%nat) as [Hfind _].
  - reflexivity.
  - discriminate.
  - exact Hfind.
Defined.



End On_arch64.

End RemoteTunnelProps.

(** ** The ssm_remote_tunnel data source *)

Module SSMRemoteTunnelProps.
Import SSMRemoteTunnel.

Section Read.
Context {W : Type} (h : Handler Call W).

(** C9: an error of [StartTunnel] is recorded and [Read] goes on to look the
    identity up in the tracker's map.  Absent, [Read] returns with "Tunnel
    not found" and sets no state.  Present, the [select] decides: on the
    ready signal the state is set, on the end of the context [Read] returns
    the cancellation diagnostic and sets no state, and until one of them
    happens [Read] stays blocked. *)
Theorem Read_after_StartTunnel (req : ReadRequest) (resp : Response)
    (w w1 w2 : W) (err : option error) (found : option TunnelInfo) :
  let data := Get_data (ReadRequest_Config req) in
  let P := SSMRemoteTunnelDataSource_Read req resp in
  resp_HasError (resp_Append resp (Get_diags (ReadRequest_Config req))) = false ->
  h _ (tracker_StartTunnel (ValueString (Id data)) (ValueString (Target data))
         (ValueString (RemoteHost data)) (ValueInt64 (RemotePort data))
         (ValueInt64 (LocalPort data)) (ValueString (Region data))) w = (err, w1) ->
  h _ (tracker_Tunnels (ValueString (Id data))) w1 = (found, w2) ->
  (exists rest,
     calls h P w = start_call data :: Tunnels_call (ValueString (Id data)) :: rest)
  /\ match found with
     | None =>
         calls h P w = [start_call data; Tunnels_call (ValueString (Id data))]
         /\ exists resp',
              outcome_of h P w = Returned resp'
              /\ In tunnel_not_found (resp_Diagnostics resp')
              /\ start_diagnostic err (resp_Diagnostics resp')
     | Some tunnelInfo =>
         forall fired w3,
           h _ (select tunnelInfo) w2 = (fired, w3) ->
           match fired with
           | Some case_ReadySignal =>
               persisted (calls h P w) = [data]
               /\ exists resp',
                    outcome_of h P w = Returned resp'
                    /\ start_diagnostic err (resp_Diagnostics resp')
           | Some case_ctx_Done =>
               persisted (calls h P w) = []
               /\ exists resp',
                    outcome_of h P w = Returned resp'
                    /\ In cancelled (resp_Diagnostics resp')
                    /\ start_diagnostic err (resp_Diagnostics resp')
           | None =>
               persisted (calls h P w) = []
               /\ outcome_of h P w = Blocked
           end
     end.
Proof.
  intros data P Hdec Hstart Hfound. subst P.
  unfold calls, trace_of, outcome_of, SSMRemoteTunnelDataSource_Read.
  rewrite Hdec. fold data. cbn [run]. rewrite Hstart. cbn [run]. rewrite Hfound.
  split.
  - destruct found as [info|]; cbn [run].
    + destruct (h _ (select info) w2) as [[[|]|] w3]; cbn [run];
        try destruct (h _ (State_Set data) w3); eexists; reflexivity.
    + eexists; reflexivity.
  - destruct found as [info|]; cbn [run].
    + intros fired w3 Hsel. rewrite Hsel.
      destruct fired as [[|]|]; cbn [run].
      * destruct (h _ (State_Set data) w3) as [diags w4]. cbn.
        split; [reflexivity|]. eexists. split; [reflexivity|].
        destruct err as [e|]; [|exact I]. simpl.
        apply Append_keeps. apply AddError_In.
      * cbn. split; [reflexivity|]. eexists. split; [reflexivity|].
        split; [apply AddError_In|].
        destruct err as [e|]; [|exact I]. simpl.
        apply Append_keeps. apply AddError_In.
      * cbn. split; reflexivity.
    + cbn. split; [reflexivity|]. eexists. split; [reflexivity|].
      split; [apply AddError_In|].
      destruct err as [e|]; [|exact I]. simpl.
      apply Append_keeps. apply AddError_In.
Qed.

End Read.

Lemma Read_after_StartTunnel_witness :
  persisted (calls (scripted (Some launch_failed) (Some (mkTunnelInfo 0))
                      (Some case_ReadySignal))
               (SSMRemoteTunnelDataSource_Read read_eks empty_resp) tt)
  = [eks_config]
  /\ exists resp',
       outcome_of (scripted (Some launch_failed) (Some (mkTunnelInfo 0))
                     (Some case_ReadySignal))
         (SSMRemoteTunnelDataSource_Read read_eks empty_resp) tt
       = Returned resp'
       /\ start_diagnostic (Some launch_failed) (resp_Diagnostics resp').
Proof.
  destruct (Read_after_StartTunnel
              (scripted (Some launch_failed) (Some (mkTunnelInfo 0))
                 (Some case_ReadySignal))
              read_eks empty_resp tt tt tt (Some launch_failed)
              (Some (mkTunnelInfo 0)) eq_refl eq_refl eq_refl) as [_ Hsel].
  exact (Hsel (Some case_ReadySignal) tt eq_refl).
Defined.

End SSMRemoteTunnelProps.

(** ** The tunnel tracker *)

Module TrackerProps.
Import Tracker.
Local Open Scope list_scope.

(** Every step of [step] is a case of [transition]. *)
Lemma step_transition (s s' : system) (i : nat) (ch : choice) :
  step s i ch = Some s' ->
  exists c, callers s !! i = Some c /\ transition s i c s'.
Proof.
  unfold step. destruct (callers s !! i) as [c|] eqn:Hc; [|discriminate].
  intros Hstep. exists c. split; [reflexivity|].
  destruct (c_pc c) as [|h|h|h port|h port|r] eqn:Hpc, ch as [|[port'|err]|[host|err]|];
    try discriminate.
  - unfold lookup_or_insert in Hstep.
    destruct (registry s !! c_identity c) as [h|] eqn:Hreg.
    + destruct (entries s !! h) as [e|] eqn:He; [|discriminate].
      destruct (state e) eqn:Hst; injection Hstep as <-; eauto using transition.
    + injection Hstep as <-. eauto using transition.
  - unfold wake in Hstep.
    destruct (entries s !! h) as [e|] eqn:He; [|discriminate].
    destruct (state e) eqn:Hst; try discriminate.
    + injection Hstep as <-. eauto using transition.
    + destruct (lastError e) as [err|] eqn:Herr; [|discriminate].
      injection Hstep as <-. eauto using transition.
  - injection Hstep as <-. eauto using transition.
  - destruct (localPort (c_request c) =? 0); [discriminate|].
    injection Hstep as <-. eauto using transition.
  - destruct (localPort (c_request c) =? 0); [|discriminate].
    injection Hstep as <-. eauto using transition.
  - destruct (localPort (c_request c) =? 0); [|discriminate].
    unfold fail in Hstep.
    destruct (entries s !! h) as [e|] eqn:He; [|discriminate].
    injection Hstep as <-. eapply t_fail; [rewrite Hpc; reflexivity | eassumption].
  - injection Hstep as <-. eauto using transition.
  - unfold succeed in Hstep.
    destruct (entries s !! h) as [e|] eqn:He; [|discriminate].
    injection Hstep as <-. eauto using transition.
  - unfold fail in Hstep.
    destruct (entries s !! h) as [e|] eqn:He; [|discriminate].
    injection Hstep as <-. eapply t_fail; [rewrite Hpc; reflexivity | eassumption].
Qed.

Lemma invariant_init (calls : list (string * TunnelRequest)) : invariant (init calls).
Proof.
  assert (Hpc : forall i c, callers (init calls) !! i = Some c -> c_pc c = AtLookup).
  { intros i c. unfold init. simpl. rewrite list_lookup_fmap.
    destruct (calls !! i); simpl; intros [= <-]; reflexivity. }
  split; simpl.
  - intros id h H. rewrite lookup_empty in H. discriminate.
  - intros h e H. rewrite lookup_nil in H. discriminate.
  - intros i c h Hc Ho. rewrite (Hpc _ _ Hc) in Ho. contradiction.
  - intros i j ci cj h Hc _ Ho. rewrite (Hpc _ _ Hc) in Ho. contradiction.
  - constructor.
  - intros l Hl. apply elem_of_nil in Hl. contradiction.
  - intros i c h Hc Ho. rewrite (Hpc _ _ Hc) in Ho. contradiction.
  - intros i c h port Hc Hp. rewrite (Hpc _ _ Hc) in Hp. discriminate.
  - intros h e H. rewrite lookup_nil in H. discriminate.
  - intros i c snap Hc Hp. rewrite (Hpc _ _ Hc) in Hp. discriminate.
  - intros i c err Hc Hp. rewrite (Hpc _ _ Hc) in Hp. discriminate.
  - intros i c h Hc Hp. rewrite (Hpc _ _ Hc) in Hp. discriminate.
Qed.


Lemma at_pc_lookup (s : system) (i j : nat) (c cj : caller) (p : pc) :
  at_pc s i c p !! j = Some cj ->
  (j = i /\ cj = mkCaller (c_identity c) (c_request c) p)
  \/ (j <> i /\ callers s !! j = Some cj).
Proof.
  unfold at_pc. intros H.
  apply list_lookup_insert_Some in H as [(-> & <- & _) | (Hne & H)]; auto.
Qed.

(** Splits on whether a caller of the next state is the one that moved. *)
Ltac moved H :=
  apply at_pc_lookup in H as [[-> ->] | [? H]];
  cbn [c_pc c_identity c_request owns unlaunched] in *.

(** A step that changes only where the caller stands. *)
Lemma invariant_with_pc (s : system) (i : nat) (c : caller) (p : pc) :
  invariant s -> callers s !! i = Some c ->
  (forall h, owns p h -> owns (c_pc c) h) ->
  (forall h, unlaunched p h -> unlaunched (c_pc c) h) ->
  (forall h port, p <> InFlight h port) ->
  (forall snap, p = Done (Ok snap) ->
     exists h e, registry s !! c_identity c = Some h /\ entries s !! h = Some e
                 /\ state e = Ready /\ snapshot e = snap) ->
  (forall err, p = Done (Err err) ->
     err = ctx_Canceled
     \/ exists h e, entries s !! h = Some e /\ identity e = c_identity c
                    /\ state e = Failed /\ lastError e = Some err) ->
  (forall h, p = Waiting h ->
     exists e, entries s !! h = Some e /\ identity e = c_identity c) ->
  invariant (with_pc s i c p).
Proof.
  intros [] Hc Hown Hun Hfl Hok Herr Hwait. 
  split; unfold launched_handles in *;
    cbn [with_pc registry entries launches callers]; try assumption.
  - intros j cj h Hj Ho. moved Hj; eauto.
  - intros j k cj ck h Hj Hk Hoj Hok'. moved Hj; moved Hk; eauto.
  - intros j cj h Hj Hu. moved Hj; eauto.
  - intros j cj h port Hj Hp. moved Hj; eauto. now apply Hfl in Hp.
  - intros j cj snap Hj Hp. moved Hj; eauto.
  - intros j cj err Hj Hp. moved Hj; eauto.
  - intros j cj h Hj Hp. moved Hj; eauto.
Qed.


Lemma owns_unlaunched (p : pc) (h : nat) : unlaunched p h -> owns p h.
Proof. destruct p; simpl; tauto. Qed.

(** Steps 4 and 5: a new entry for an identity that has none, or a failed one. *)
Lemma invariant_fresh_start (s : system) (i : nat) (c : caller) :
  invariant s -> callers s !! i = Some c -> c_pc c = AtLookup ->
  (forall h e, registry s !! c_identity c = Some h -> entries s !! h = Some e ->
               state e = Failed) ->
  invariant (fresh_start s i c).
Proof.
  intros [] Hc Hpc Hold.
  assert (Hlt : forall h e, entries s !! h = Some e -> (h < length (entries s))%nat)
    by (intros h e; apply lookup_lt_Some).
  assert (Hkeep : forall h e, entries s !! h = Some e ->
                              (entries s ++ [new_entry c]) !! h = Some e).
  { intros h e He. rewrite lookup_app_l; eauto. }
  assert (Hother : forall h e, entries s !! h = Some e -> state e <> Failed ->
                               identity e <> c_identity c).
  { intros h e He Hst Hid. specialize (inv_current0 h e He Hst).
    rewrite Hid in inv_current0. apply Hst. eauto. }
  split; unfold launched_handles in *;
    cbn [fresh_start registry entries launches callers];
    rewrite ?insert_delete_eq; try assumption.
  - intros id h Hreg. apply lookup_insert_Some in Hreg as [[<- <-] | [Hne Hreg]].
    + exists (new_entry c). split; [|reflexivity].
      rewrite lookup_app_r, Nat.sub_diag; [reflexivity | lia].
    + destruct (inv_registry0 _ _ Hreg) as (e & He & Hid). eauto.
  - intros h e He Hst. apply lookup_snoc_Some in He as [[_ He] | [-> <-]].
    + rewrite lookup_insert_ne; eauto. intros Heq. eapply Hother; eauto.
    + apply lookup_insert_eq.
  - intros j cj h Hj Ho. moved Hj.
    + subst h. exists (new_entry c). split; [|split; reflexivity].
      rewrite lookup_app_r, Nat.sub_diag; [reflexivity | lia].
    + destruct (inv_owner0 _ _ _ Hj Ho) as (e & He & Hst & Hid). eauto.
  - intros j k cj ck h Hj Hk Hoj Hok. moved Hj; moved Hk; eauto.
    + subst h. destruct (inv_owner0 _ _ _ Hk Hok) as (e & He & _).
      apply Hlt in He. lia.
    + subst h. destruct (inv_owner0 _ _ _ Hj Hoj) as (e & He & _).
      apply Hlt in He. lia.
  - intros l Hl. destruct (inv_launch0 _ Hl) as (e & He & Hid). eauto.
  - intros j cj h Hj Hu. moved Hj; eauto.
    subst h. intros Hin. apply list_elem_of_fmap in Hin as (l & Hh & Hl).
    destruct (inv_launch0 _ Hl) as (e & He & _). apply Hlt in He. lia.
  - intros j cj h port Hj Hp. moved Hj; eauto. discriminate.
  - intros h e He Hst. apply lookup_snoc_Some in He as [[_ He] | [-> <-]]; eauto.
    discriminate.
  - intros j cj snap Hj Hp. moved Hj; [discriminate|].
    destruct (inv_ok0 _ _ _ Hj Hp) as (h & e & Hreg & He & Hst & Hsnap).
    exists h, e. repeat split; eauto.
    rewrite lookup_insert_ne; [assumption|].
    intros Heq. rewrite <- Heq in Hreg.
    specialize (Hold _ _ Hreg He). congruence.
  - intros j cj err Hj Hp. moved Hj; [discriminate|].
    destruct (inv_err0 _ _ _ Hj Hp) as [? | (h & e & He & ?)]; [auto|].
    right. exists h, e. eauto.
  - intros j cj h Hj Hp. moved Hj; [discriminate|].
    destruct (inv_waiting0 _ _ _ Hj Hp) as (e & He & Hid). eauto.
Qed.

(** Step 7: the Session Launcher is invoked. *)
Lemma invariant_launch (s : system) (i : nat) (c : caller) (h : nat) (port : Z) :
  invariant s -> callers s !! i = Some c -> c_pc c = Launching h port ->
  invariant (mkSystem (registry s) (entries s)
               (launches s ++ [mkLaunch (c_identity c) h port])
               (at_pc s i c (InFlight h port))).
Proof.
  intros [] Hc Hpc.
  assert (Hown : owns (c_pc c) h) by (rewrite Hpc; reflexivity).
  assert (Hun : unlaunched (c_pc c) h) by (rewrite Hpc; reflexivity).
  split; unfold launched_handles in *;
    cbn [registry entries launches callers]; try assumption.
  - intros j cj h' Hj Ho. moved Hj; eauto. simpl in Ho. subst h'. eauto.
  - intros j k cj ck h' Hj Hk Hoj Hok. moved Hj; moved Hk; eauto.
    + simpl in Hoj. subst h'. eauto.
    + simpl in Hok. subst h'. eauto.
  - rewrite fmap_app. apply NoDup_app. repeat split; [assumption| |].
    + intros x Hx Hin. apply list_elem_of_singleton in Hin. subst x.
      exact (inv_unlaunched0 _ _ _ Hc Hun Hx).
    + apply NoDup_singleton.
  - intros l Hl. apply elem_of_app in Hl as [Hl | Hl]; [eauto|].
    apply list_elem_of_singleton in Hl. subst l. simpl.
    destruct (inv_owner0 _ _ _ Hc Hown) as (e & He & _ & Hid). eauto.
  - intros j cj h' Hj Hu. moved Hj; [contradiction|].
    rewrite fmap_app. intros Hin. apply elem_of_app in Hin as [Hin | Hin].
    + exact (inv_unlaunched0 _ _ _ Hj Hu Hin).
    + apply list_elem_of_singleton in Hin. simpl in Hin. subst h'.
      apply owns_unlaunched in Hu. eauto.
  - intros j cj h' port' Hj Hp. moved Hj.
    + injection Hp as <- <-. apply elem_of_app. right. apply list_elem_of_singleton. reflexivity.
    + apply elem_of_app. left. eauto.
  - intros h' e He Hst. apply elem_of_app. left. eauto.
  - intros j cj snap Hj Hp. moved Hj; [discriminate|]. eauto.
  - intros j cj err Hj Hp. moved Hj; [discriminate|]. eauto.
  - intros j cj h' Hj Hp. moved Hj; [discriminate|]. eauto.
Qed.


(** Looking an entry up after the entry [h] was replaced by one of the same
    identity. *)
Lemma lookup_replaced (ents : list TunnelInfo) (h h' : nat) (e e0 e' : TunnelInfo) :
  ents !! h = Some e0 -> identity e = identity e0 ->
  <[h := e]> ents !! h' = Some e' ->
  (h' = h /\ e' = e) \/ (h' <> h /\ ents !! h' = Some e').
Proof.
  intros He0 Hid H.
  apply list_lookup_insert_Some in H as [(-> & <- & _) | (Hne & H)]; auto.
Qed.

Lemma lookup_kept (ents : list TunnelInfo) (h h' : nat) (e e0 e' : TunnelInfo) :
  ents !! h = Some e0 -> identity e = identity e0 ->
  ents !! h' = Some e' ->
  exists e'', <[h := e]> ents !! h' = Some e'' /\ identity e'' = identity e'
              /\ (h' <> h -> e'' = e').
Proof.
  intros He0 Hid He'. destruct (decide (h' = h)) as [-> | Hne].
  - exists e. rewrite list_lookup_insert_eq by (eapply lookup_lt_Some; eauto).
    split; [reflexivity|]. split; [congruence | contradiction].
  - exists e'. rewrite list_lookup_insert_ne by auto. auto.
Qed.

(** Steps 6 and 8 on failure. *)
Lemma invariant_fail (s : system) (i : nat) (c : caller) (h : nat)
    (e : TunnelInfo) (err : error) :
  invariant s -> callers s !! i = Some c -> owns (c_pc c) h ->
  entries s !! h = Some e ->
  invariant (mkSystem (registry s) (<[h := set_Failed e err]> (entries s))
               (launches s) (at_pc s i c (Done (Err err)))).
Proof.
  intros [] Hc Hown He.
  destruct (inv_owner0 _ _ _ Hc Hown) as (e0 & He0 & Hst0 & Hid0).
  assert (e0 = e) by congruence. subst e0.
  assert (Hid : identity (set_Failed e err) = identity e) by reflexivity.
  split; unfold launched_handles in *;
    cbn [registry entries launches callers]; try assumption.
  - intros id h' Hreg. destruct (inv_registry0 _ _ Hreg) as (e' & He' & Hid').
    destruct (lookup_kept _ _ _ _ _ _ He Hid He') as (e'' & ? & ? & _).
    exists e''. split; congruence.
  - intros h' e' He' Hst.
    apply (lookup_replaced _ _ _ _ _ _ He Hid) in He' as [[-> ->] | [Hne He']].
    + now contradict Hst.
    + eauto.
  - intros j cj h' Hj Ho. moved Hj; [contradiction|].
    destruct (inv_owner0 _ _ _ Hj Ho) as (e' & He' & Hst' & Hid').
    exists e'. repeat split; try assumption.
    rewrite list_lookup_insert_ne; [assumption|].
    intros <-. apply H. eauto.
  - intros j k cj ck h' Hj Hk Hoj Hok. moved Hj; moved Hk; eauto; contradiction.
  - intros l Hl. destruct (inv_launch0 _ Hl) as (e' & He' & Hid').
    destruct (lookup_kept _ _ _ _ _ _ He Hid He') as (e'' & ? & ? & _).
    exists e''. split; congruence.
  - intros j cj h' Hj Hu. moved Hj; [contradiction|]. eauto.
  - intros j cj h' port Hj Hp. moved Hj; [discriminate|]. eauto.
  - intros h' e' He' Hst.
    apply (lookup_replaced _ _ _ _ _ _ He Hid) in He' as [[-> ->] | [Hne He']].
    + discriminate.
    + eauto.
  - intros j cj snap Hj Hp. moved Hj; [discriminate|].
    destruct (inv_ok0 _ _ _ Hj Hp) as (h' & e' & Hreg & He' & Hst' & Hsnap).
    exists h', e'. repeat split; try assumption.
    rewrite list_lookup_insert_ne; [assumption|].
    intros <-. congruence.
  - intros j cj err' Hj Hp. moved Hj.
    + injection Hp as <-. right. exists h, (set_Failed e err).
      rewrite list_lookup_insert_eq by (eapply lookup_lt_Some; eauto).
      repeat split. assumption.
    + destruct (inv_err0 _ _ _ Hj Hp) as [? | (h' & e' & He' & ? & Hst' & ?)]; [auto|].
      right. exists h', e'. repeat split; try assumption.
      rewrite list_lookup_insert_ne; [assumption|].
      intros <-. congruence.
  - intros j cj h' Hj Hp. moved Hj; [discriminate|].
    destruct (inv_waiting0 _ _ _ Hj Hp) as (e' & He' & Hid').
    destruct (lookup_kept _ _ _ _ _ _ He Hid He') as (e'' & ? & ? & _).
    exists e''. split; congruence.
Qed.

(** Step 8 on success. *)
Lemma invariant_succeed (s : system) (i : nat) (c : caller) (h : nat) (port : Z)
    (e : TunnelInfo) (host : string) :
  invariant s -> callers s !! i = Some c -> c_pc c = InFlight h port ->
  entries s !! h = Some e ->
  invariant (mkSystem (registry s) (<[h := set_Ready e host port]> (entries s))
               (launches s)
               (at_pc s i c (Done (Ok (snapshot (set_Ready e host port)))))).
Proof.
  intros [] Hc Hpc He.
  assert (Hown : owns (c_pc c) h) by (rewrite Hpc; reflexivity).
  destruct (inv_owner0 _ _ _ Hc Hown) as (e0 & He0 & Hst0 & Hid0).
  assert (e0 = e) by congruence. subst e0.
  assert (Hid : identity (set_Ready e host port) = identity e) by reflexivity.
  assert (Hlt : (h < length (entries s))%nat) by (eapply lookup_lt_Some; eauto).
  assert (Hcur : registry s !! c_identity c = Some h).
  { rewrite <- Hid0. apply inv_current0; [assumption | congruence]. }
  split; unfold launched_handles in *;
    cbn [registry entries launches callers]; try assumption.
  - intros id h' Hreg. destruct (inv_registry0 _ _ Hreg) as (e' & He' & Hid').
    destruct (lookup_kept _ _ _ _ _ _ He Hid He') as (e'' & ? & ? & _).
    exists e''. split; congruence.
  - intros h' e' He' Hst.
    apply (lookup_replaced _ _ _ _ _ _ He Hid) in He' as [[-> ->] | [Hne He']].
    + cbn [set_Ready identity]. congruence.
    + eauto.
  - intros j cj h' Hj Ho. moved Hj; [contradiction|].
    destruct (inv_owner0 _ _ _ Hj Ho) as (e' & He' & Hst' & Hid').
    exists e'. repeat split; try assumption.
    rewrite list_lookup_insert_ne; [assumption|].
    intros <-. apply H. eauto.
  - intros j k cj ck h' Hj Hk Hoj Hok. moved Hj; moved Hk; eauto; contradiction.
  - intros l Hl. destruct (inv_launch0 _ Hl) as (e' & He' & Hid').
    destruct (lookup_kept _ _ _ _ _ _ He Hid He') as (e'' & ? & ? & _).
    exists e''. split; congruence.
  - intros j cj h' Hj Hu. moved Hj; [contradiction|]. eauto.
  - intros j cj h' port' Hj Hp. moved Hj; [discriminate|]. eauto.
  - intros h' e' He' Hst.
    apply (lookup_replaced _ _ _ _ _ _ He Hid) in He' as [[-> ->] | [Hne He']].
    + cbn [set_Ready identity assignedPort]. rewrite Hid0. eauto.
    + eauto.
  - intros j cj snap Hj Hp. moved Hj.
    + injection Hp as <-. exists h, (set_Ready e host port).
      rewrite list_lookup_insert_eq by assumption. repeat split. assumption.
    + destruct (inv_ok0 _ _ _ Hj Hp) as (h' & e' & Hreg & He' & Hst' & Hsnap).
      exists h', e'. repeat split; try assumption.
      rewrite list_lookup_insert_ne; [assumption|].
      intros <-. congruence.
  - intros j cj err' Hj Hp. moved Hj; [discriminate|].
    destruct (inv_err0 _ _ _ Hj Hp) as [? | (h' & e' & He' & ? & Hst' & ?)]; [auto|].
    right. exists h', e'. repeat split; try assumption.
    rewrite list_lookup_insert_ne; [assumption|].
    intros <-. congruence.
  - intros j cj h' Hj Hp. moved Hj; [discriminate|].
    destruct (inv_waiting0 _ _ _ Hj Hp) as (e' & He' & Hid').
    destruct (lookup_kept _ _ _ _ _ _ He Hid He') as (e'' & ? & ? & _).
    exists e''. split; congruence.
Qed.


(** Every transition keeps the invariant. *)
Lemma invariant_transition (s s' : system) (i : nat) (c : caller) :
  invariant s -> callers s !! i = Some c -> transition s i c s' -> invariant s'.
Proof.
  intros Hinv Hc Ht.
  destruct Ht as [h e Hpc Hreg He Hst | h e Hpc Hreg He Hst | Hpc Hreg
                 | h e Hpc Hreg He Hst | h e Hpc He Hst | h e err Hpc He Hst Herr
                 | h Hpc | h port Hpc | h port Hpc | h e err Hown He
                 | h port e host Hpc He].
  - apply invariant_with_pc; try assumption; try discriminate; try contradiction.
    intros snap [= <-]. eauto 10.
  - apply invariant_with_pc; try assumption; try discriminate; try contradiction.
    intros h' [= <-]. destruct (inv_registry s Hinv _ _ Hreg) as (e' & He' & Hid).
    eauto.
  - apply invariant_fresh_start; try assumption. intros h e Hreg'. congruence.
  - apply invariant_fresh_start; try assumption. intros h' e' Hreg' He'. congruence.
  - apply invariant_with_pc; try assumption; try discriminate; try contradiction.
    intros snap [= <-].
    destruct (inv_waiting s Hinv _ _ _ Hc Hpc) as (e' & He' & Hid).
    assert (e' = e) by congruence. subst e'.
    exists h, e. repeat split; try assumption.
    rewrite <- Hid. apply (inv_current s Hinv); [assumption | congruence].
  - apply invariant_with_pc; try assumption; try discriminate; try contradiction.
    intros err' [= <-]. right.
    destruct (inv_waiting s Hinv _ _ _ Hc Hpc) as (e' & He' & Hid).
    assert (e' = e) by congruence. subst e'. eauto 10.
  - apply invariant_with_pc; try assumption; try discriminate; try contradiction.
    intros err' [= <-]. now left.
  - apply invariant_with_pc; try assumption; try discriminate;
      rewrite Hpc; simpl; auto.
  - now apply invariant_launch.
  - now apply invariant_fail.
  - now apply invariant_succeed.
Qed.

Lemma invariant_step (s s' : system) (i : nat) (ch : choice) :
  invariant s -> step s i ch = Some s' -> invariant s'.
Proof.
  intros Hinv Hstep. apply step_transition in Hstep as (c & Hc & Ht).
  eauto using invariant_transition.
Qed.

Lemma invariant_run (sched : schedule) (s s' : system) :
  invariant s -> run sched s = Some s' -> invariant s'.
Proof.
  revert s. induction sched as [|[i ch] sched IH]; simpl; intros s Hinv Hrun.
  - now injection Hrun as <-.
  - destruct (step s i ch) as [s1|] eqn:Hstep; [|discriminate].
    eauto using invariant_step.
Qed.

Lemma invariant_reachable (calls : list (string * TunnelRequest)) (s : system) :
  reachable calls s -> invariant s.
Proof. intros [sched Hrun]. eauto using invariant_run, invariant_init. Qed.


(** *** A [Ready] entry stays as it is *)

Lemma launches_of_with_pc (id : string) (s : system) (i : nat) (c : caller) (p : pc) :
  launches_of id (with_pc s i c p) = launches_of id s.
Proof. reflexivity. Qed.

Lemma ready_kept_by_transition (s s' : system) (i : nat) (c : caller)
    (id : string) (h : nat) (e : TunnelInfo) :
  invariant s -> callers s !! i = Some c -> transition s i c s' ->
  registry s !! id = Some h -> entries s !! h = Some e -> state e = Ready ->
  registry s' !! id = Some h /\ entries s' !! h = Some e
  /\ launches_of id s' = launches_of id s.
Proof.
  intros Hinv Hc Ht Hreg He Hst.
  assert (Hstarting : forall h', owns (c_pc c) h' -> h' <> h).
  { intros h' Hown ->.
    destruct (inv_owner s Hinv _ _ _ Hc Hown) as (e' & He' & Hst' & _). congruence. }
  assert (Hfresh : (registry s !! c_identity c = None
                    \/ exists h0 e0, registry s !! c_identity c = Some h0
                                     /\ entries s !! h0 = Some e0 /\ state e0 = Failed) ->
                   registry (fresh_start s i c) !! id = Some h
                   /\ entries (fresh_start s i c) !! h = Some e
                   /\ launches_of id (fresh_start s i c) = launches_of id s).
  { intros Hnew. cbn [fresh_start registry entries]. rewrite insert_delete_eq.
    assert (c_identity c <> id).
    { intros Heq. rewrite Heq in Hnew.
      destruct Hnew as [? | (h0 & e0 & ? & ? & ?)]; congruence. }
    rewrite lookup_insert_ne by assumption.
    rewrite lookup_app_l by (eapply lookup_lt_Some; eauto). auto. }
  destruct Ht as [h1 e1 Hpc Hreg1 He1 Hst1 | h1 e1 Hpc Hreg1 He1 Hst1 | Hpc Hreg1
                 | h1 e1 Hpc Hreg1 He1 Hst1 | h1 e1 Hpc He1 Hst1
                 | h1 e1 err Hpc He1 Hst1 Herr | h1 Hpc | h1 port Hpc | h1 port Hpc
                 | h1 e1 err Hown He1 | h1 port e1 host Hpc He1];
    cbn [with_pc registry entries]; rewrite ?launches_of_with_pc; auto.
  - apply Hfresh. eauto 10.
  - (* launch *)
    repeat split; try assumption.
    unfold launches_of. cbn [launches]. rewrite filter_app.
    rewrite filter_cons_False, filter_nil, app_nil_r; [reflexivity|].
    cbn [l_identity]. intros Heq.
    assert (Hown : owns (c_pc c) h1) by (rewrite Hpc; reflexivity).
    destruct (inv_owner s Hinv _ _ _ Hc Hown) as (e' & He' & Hst' & Hid').
    assert (Hcur : registry s !! identity e' = Some h1)
      by (apply (inv_current s Hinv); [assumption | congruence]).
    rewrite Hid', Heq in Hcur. congruence.
  - (* fail *)
    rewrite list_lookup_insert_ne by (apply Hstarting; assumption). auto.
  - (* succeed *)
    rewrite list_lookup_insert_ne
      by (apply Hstarting; rewrite Hpc; reflexivity). auto.
Qed.

Lemma ready_kept_by_run (sched : schedule) (s s' : system)
    (id : string) (h : nat) (e : TunnelInfo) :
  invariant s -> run sched s = Some s' ->
  registry s !! id = Some h -> entries s !! h = Some e -> state e = Ready ->
  registry s' !! id = Some h /\ entries s' !! h = Some e
  /\ launches_of id s' = launches_of id s.
Proof.
  revert s. induction sched as [|[i ch] sched IH]; simpl; intros s Hinv Hrun Hreg He Hst.
  - injection Hrun as <-. auto.
  - destruct (step s i ch) as [s1|] eqn:Hstep; [|discriminate].
    pose proof (invariant_step _ _ _ _ Hinv Hstep) as Hinv1.
    apply step_transition in Hstep as (c & Hc & Ht).
    destruct (ready_kept_by_transition _ _ _ _ _ _ _ Hinv Hc Ht Hreg He Hst)
      as (Hreg1 & He1 & Hl1).
    destruct (IH s1 Hinv1 Hrun Hreg1 He1 Hst) as (Hreg' & He' & Hl').
    repeat split; congruence.
Qed.

(** C2: once an identity is [Ready], a call for it can only return at
    once, with the entry's snapshot, leaving the registry, the entries and
    the launches as they are; whatever calls run afterwards, the entry stays
    as it is, no session is launched for the identity, and every call that
    returns a snapshot for it returns the same local host and port. *)
Theorem ready_is_idempotent (calls : list (string * TunnelRequest)) (s : system)
    (id : string) (h : nat) (e : TunnelInfo) :
  reachable calls s ->
  registry s !! id = Some h -> entries s !! h = Some e -> state e = Ready ->
  (forall i c,
     callers s !! i = Some c -> c_identity c = id -> c_pc c = AtLookup ->
     step s i Proceed
     = Some (mkSystem (registry s) (entries s) (launches s)
               (at_pc s i c (Done (Ok (snapshot e)))))
     /\ forall ch s', step s i ch = Some s' -> ch = Proceed)
  /\ (forall sched s',
        run sched s = Some s' ->
        registry s' !! id = Some h /\ entries s' !! h = Some e
        /\ launches_of id s' = launches_of id s
        /\ forall i snap, returned s' i id (Ok snap) -> snap = snapshot e).
Proof.
  intros Hreach Hreg He Hst. pose proof (invariant_reachable _ _ Hreach) as Hinv.
  split.
  - intros i c Hc Hid Hpc. split.
    + unfold step. rewrite Hc, Hpc. unfold lookup_or_insert.
      rewrite Hid, Hreg, He, Hst. reflexivity.
    + intros ch s'. unfold step. rewrite Hc, Hpc.
      destruct ch; [reflexivity | discriminate..].
  - intros sched s' Hrun.
    destruct (ready_kept_by_run _ _ _ _ _ _ Hinv Hrun Hreg He Hst)
      as (Hreg' & He' & Hl').
    repeat split; try assumption.
    intros i snap (c & Hc & Hid & Hpc).
    pose proof (invariant_run _ _ _ Hinv Hrun) as Hinv'.
    destruct (inv_ok s' Hinv' _ _ _ Hc Hpc) as (h' & e' & Hreg'' & He'' & _ & Hsnap).
    rewrite Hid in Hreg''. congruence.
Qed.


(** *** Launches per identity *)







(** The run of the spec's scenario: one launch, both calls with the same
    local host and port. *)
Example shared_start_results :
  results <$> run shared_start (init two_calls)
  = Some [Done (Ok (mkSnapshot "t1" "127.0.0.1" 18123));
          Done (Ok (mkSnapshot "t1" "127.0.0.1" 18123))]
  /\ launch_count "t1" <$> run shared_start (init two_calls) = Some 1%nat.
Proof. split; vm_compute; reflexivity. Qed.


Lemma ready_is_idempotent_witness :
  step (final first_alone) 1 Proceed
  = Some (mkSystem (registry (final first_alone)) (entries (final first_alone))
            (launches (final first_alone))
            (at_pc (final first_alone) 1 (mkCaller "t1" db_request AtLookup)
               (Done (Ok (snapshot ready_entry))))).
Proof.
  assert (Hreach : reachable two_calls (final first_alone))
    by (exists first_alone; vm_compute; reflexivity).
  assert (Hreg : registry (final first_alone) !! "t1" = Some 0%nat)
    by (vm_compute; reflexivity).
  assert (He : entries (final first_alone) !! 0%nat = Some ready_entry)
    by (vm_compute; reflexivity).
  destruct (ready_is_idempotent two_calls (final first_alone) "t1" 0 ready_entry
              Hreach Hreg He eq_refl) as [Hnow _].
  destruct (Hnow 1%nat (mkCaller "t1" db_request AtLookup)) as [Hstep _];
    [vm_compute; reflexivity | reflexivity | reflexivity | exact Hstep].
Defined.


End TrackerProps.

(** * Further properties of the code *)

(** ** Diagnostics, continued *)

Lemma Contains_AddError (diags : Diagnostics) (summary detail : string) :
  Contains (AddError diags summary detail) (NewErrorDiagnostic summary detail) = true.
Proof.
  unfold Contains. apply existsb_exists.
  exists (NewErrorDiagnostic summary detail). split; [apply AddError_In|].
  unfold Diagnostic_Equal. simpl. now rewrite !String.eqb_refl.
Qed.

Lemma AddError_twice (diags : Diagnostics) (summary detail : string) :
  AddError (AddError diags summary detail) summary detail
  = AddError diags summary detail.
Proof.
  unfold AddError at 1. unfold Append. simpl.
  now rewrite Contains_AddError.
Qed.

(** ** [strings.Split] and [strconv.Atoi], continued *)

Lemma Split_no_separator (f : string) (sep : ascii) :
  occurs sep f = false -> strings_Split f sep = [f].
Proof.
  induction f as [|c f IH]; simpl; [reflexivity|].
  destruct (Ascii.eqb c sep); simpl; [discriminate|].
  intros H. now rewrite (IH H).
Qed.

Lemma Split_field_then (f rest : string) (sep : ascii) :
  occurs sep f = false ->
  strings_Split (f ++ String sep rest) sep = f :: strings_Split rest sep.
Proof.
  induction f as [|c f IH]; simpl.
  - now rewrite Ascii.eqb_refl.
  - destruct (Ascii.eqb c sep); simpl; [discriminate|].
    intros H. now rewrite (IH H).
Qed.

(** Splitting what was joined gives the fields back, when no field holds the
    separator. *)
Lemma Split_Join (fields : list string) (sep : ascii) :
  fields <> [] ->
  Forall (fun field => occurs sep field = false) fields ->
  strings_Split (strings_Join fields sep) sep = fields.
Proof.
  induction fields as [|f fields IH]; [congruence|].
  intros _ Hall. inversion Hall as [|? ? Hf Hrest]; subst.
  destruct fields as [|g fields].
  - simpl. now apply Split_no_separator.
  - change (strings_Join (f :: g :: fields) sep)
      with (f ++ String sep (strings_Join (g :: fields) sep)).
    rewrite Split_field_then by assumption.
    now rewrite IH.
Qed.

Lemma wrap_in_range (z : Z) : in_int64 (wrap 64 z).
Proof.
  unfold in_int64, wrap. change (2 ^ (64 - 1)) with (2 ^ 63).
  pose proof (Z.mod_pos_bound (z + 2 ^ 63) (2 ^ 64) ltac:(lia)). lia.
Qed.

Lemma digit_byte (c : ascii) :
  is_digit c = true -> uint8 (byte c - 48) = byte c - 48 /\ 0 <= byte c - 48 <= 9.
Proof.
  unfold is_digit, uint8. intros H. apply andb_true_iff in H as [H1 H2].
  apply Z.leb_le in H1, H2. rewrite Z.mod_small; lia.
Qed.

(** The numbers with as many digits as the fast path reads fit [int]. *)
Lemma fast_digits_fit {arch : GOARCH} :
  10 ^ Z.of_nat (Atoi_fast_bytes - 1) < 2 ^ (intSize - 1).
Proof. destruct arch; vm_compute; reflexivity. Qed.

(** The fast loop computes the decimal value as long as the digits are
    fewer than the fast path's limit. *)
Lemma Atoi_fast_loop_decimal {arch : GOARCH} (s : string) (n : Z) (k : nat) :
  all_digits s = true -> 0 <= n < 10 ^ Z.of_nat k ->
  (k + String.length s < Atoi_fast_bytes)%nat ->
  Atoi_fast_loop s n = Some (decimal_from n s)
  /\ 0 <= decimal_from n s < 10 ^ Z.of_nat (k + String.length s).
Proof.
  revert n k. induction s as [|c s IH]; simpl; intros n k Hd Hn Hk.
  - split; [reflexivity|]. now rewrite Nat.add_0_r.
  - apply andb_true_iff in Hd as [Hc Hd].
    rewrite nondigit_byte, Hc. simpl.
    destruct (digit_byte c Hc) as [-> Hrange].
    assert (Hpow : 10 ^ Z.of_nat (S k) = 10 * 10 ^ Z.of_nat k)
      by (rewrite Nat2Z.inj_succ, Z.pow_succ_r; lia).
    assert (Hle : 10 ^ Z.of_nat (S k) <= 10 ^ Z.of_nat (Atoi_fast_bytes - 1))
      by (apply Z.pow_le_mono_r; lia).
    pose proof fast_digits_fit as Hfit.
    assert (Hnext : 0 <= n * 10 + (byte c - 48) < 10 ^ Z.of_nat (S k)) by lia.
    rewrite (int_in_range (n * 10)) by (unfold in_int; lia).
    rewrite (int_in_range (n * 10 + _)) by (unfold in_int; lia).
    destruct (IH _ (S k) Hd Hnext ltac:(lia)) as [Hloop Hbound].
    split; [exact Hloop|].
    replace (k + S (String.length s))%nat with (S k + String.length s)%nat by lia.
    exact Hbound.
Qed.

(** [Atoi] reads a decimal numeral shorter than the fast path's limit as
    the number it denotes, which fits [int]. *)
Lemma Atoi_numeral {arch : GOARCH} (s : string) :
  numeric s = true -> (String.length s < Atoi_fast_bytes)%nat ->
  strconv_Atoi s = (numeral_value s, None) /\ in_int (numeral_value s).
Proof.
  intros Hnum Hlen. unfold strconv_Atoi, numeral_value. rewrite Atoi_fast_path.
  destruct s as [|c0 s']; [discriminate|].
  replace ((0 <? Z.of_nat (String.length (String c0 s')))
           && (Z.of_nat (String.length (String c0 s')) <? Z.of_nat Atoi_fast_bytes))
    with true
    by (symmetry; apply andb_true_iff; split; apply Z.ltb_lt;
        simpl String.length in *; lia).
  unfold numeric in Hnum. simpl String.length in Hlen.
  pose proof fast_digits_fit as Hfit.
  destruct (is_sign c0) eqn:Hsign.
  - apply andb_true_iff in Hnum as [Hne Hd].
    destruct s' as [|c1 s'']; [discriminate|].
    replace (Z.of_nat (String.length (String c1 s'')) <? 1) with false
      by (symmetry; apply Z.ltb_ge; simpl String.length; lia).
    cbn [andb].
    destruct (Atoi_fast_loop_decimal (String c1 s'') 0 0 Hd ltac:(simpl; lia)
                ltac:(simpl in *; lia)) as [-> Hb].
    assert (Hle : 10 ^ Z.of_nat (0 + String.length (String c1 s''))
                  <= 10 ^ Z.of_nat (Atoi_fast_bytes - 1))
      by (apply Z.pow_le_mono_r; simpl in *; lia).
    unfold is_sign in Hsign. destruct (Ascii.eqb c0 "-") eqn:Hminus.
    + rewrite int_in_range by (unfold in_int; lia).
      split; [reflexivity | unfold in_int; lia].
    + rewrite orb_false_r in Hsign. rewrite Hsign.
      split; [reflexivity | unfold in_int; lia].
  - cbn [andb].
    destruct (Atoi_fast_loop_decimal (String c0 s') 0 0 Hnum ltac:(simpl; lia)
                ltac:(simpl in *; lia)) as [-> Hb].
    assert (Hle : 10 ^ Z.of_nat (0 + String.length (String c0 s'))
                  <= 10 ^ Z.of_nat (Atoi_fast_bytes - 1))
      by (apply Z.pow_le_mono_r; simpl in *; lia).
    unfold is_sign in Hsign. apply orb_false_iff in Hsign as [Hplus Hminus].
    rewrite Hminus, Hplus. split; [reflexivity | unfold in_int; lia].
Qed.

(** Whatever the string, the value of [Atoi] fits [int]. *)
Lemma Atoi_in_range {arch : GOARCH} (s : string) : in_int (fst (strconv_Atoi s)).
Proof.
  assert (H0 : in_int 0) by (rewrite <- int_0; apply int_is_in_range).
  assert (Hloop : forall s n, in_int n ->
            forall m, Atoi_fast_loop s n = Some m -> in_int m).
  { clear s. induction s as [|c s IH]; simpl; intros n Hn m.
    - now intros [= <-].
    - destruct (9 <? _); [discriminate|]. apply IH. apply int_is_in_range. }
  unfold strconv_Atoi.
  destruct (_ || _).
  - destruct s as [|c0 s']; [exact H0|].
    destruct (is_sign c0 && _); [exact H0|].
    destruct (Atoi_fast_loop _ 0) as [m|] eqn:Hm; [|exact H0].
    simpl. destruct (Ascii.eqb c0 "-"); [apply int_is_in_range | eauto].
  - destruct (strconv_ParseInt s) as [i64 err]. simpl. apply int_is_in_range.
Qed.

(** What [ImportState] persists for a port and what [Read] then converts to
    [int] is the value of [Atoi] itself. *)
Lemma Atoi_round_trip {arch : GOARCH} (s : string) :
  int64 (fst (strconv_Atoi s)) = fst (strconv_Atoi s)
  /\ int (fst (strconv_Atoi s)) = fst (strconv_Atoi s).
Proof.
  pose proof (Atoi_in_range s) as H. split.
  - apply int64_in_range, in_int_in_int64, H.
  - apply int_in_range, H.
Qed.

(** ** The remote_tunnel data source and resource, continued *)

Module RemoteTunnelExtras.
Import RemoteTunnel RemoteTunnelProps.

(** Runs the method to its end under every answer of the handler. *)
Ltac run_method h :=
  unfold_method; simpl decoded;
  repeat match goal with
         | |- context [if ?b then _ else _] => destruct b eqn:?; simpl
         end;
  repeat (answer h; repeat branch).

Section Methods.
Context {W : Type} (h : Handler Call W) {arch : GOARCH}.

(** X1: a start method whose response holds an error once the request is
    decoded returns that response at once: it calls no collaborator and
    leaves the world as it is. *)
Theorem undecoded_request_makes_no_call (op : start_op) (resp : Response) (w : W) :
  resp_HasError (resp_Append resp (Get_diags (decoded op))) = true ->
  run h (method op resp) w
  = (Returned (resp_Append resp (Get_diags (decoded op))), w, []).
Proof.
  intros Hdec. destruct op as [req|req|req|req]; unfold_method; simpl in *;
    rewrite Hdec; reflexivity.
Qed.

(** X2: when [StartTunnel] returns an error, the method returns with the
    diagnostic "Failed to start remote tunnel" carrying the error's text,
    sets no state and asks for no UUID. *)
Theorem StartTunnel_error_reported (op : start_op) (resp : Response) (w : W)
    (info : option TunnelInfo) (err : error) :
  In (info, Some err) (started (trace_of h (method op resp) w)) ->
  persisted (calls h (method op resp) w) = []
  /\ generated (trace_of h (method op resp) w) = []
  /\ exists resp',
       outcome_of h (method op resp) w = Returned resp'
       /\ In (NewErrorDiagnostic "Failed to start remote tunnel" ("Error: " ++ Error err))
            (resp_Diagnostics resp')
       /\ resp_HasError resp' = true.
Proof.
  destruct op as [req|req|req|req]; run_method h; intros Hin;
    repeat (destruct Hin as [Hin | Hin]; [try discriminate Hin|]);
    try contradiction;
    injection Hin as -> ->;
    (split; [reflexivity|]); (split; [reflexivity|]);
    eexists; (split; [reflexivity|]);
    (split; [apply AddError_In | apply HasError_AddError]).
Qed.

(** What a persisted model holds: the decoded attributes, but the local
    port and host of the tunnel [StartTunnel] returned, and whatever [Id]. *)
Lemma persisted_shape (op : start_op) (resp : Response) (w : W)
    (data' : SSMRemoteTunnelDataSourceModel) :
  In data' (persisted (calls h (method op resp) w)) ->
  exists info,
    In (Some info, None) (started (trace_of h (method op resp) w))
    /\ data' = mkModel (Target (Get_data (decoded op)))
                 (RemoteHost (Get_data (decoded op)))
                 (RemotePort (Get_data (decoded op)))
                 (NewInt64Value (int64 (TunnelInfo_LocalPort info)))
                 (NewStringValue (TunnelInfo_LocalHost info))
                 (Region (Get_data (decoded op))) (Id data').
Proof.
  destruct op as [req|req|req|req]; run_method h; intros Hin;
    repeat (destruct Hin as [Hin | Hin]; [try discriminate Hin|]);
    try contradiction; subst data'; eexists; (split; [left; reflexivity|]);
    reflexivity.
Qed.

(** X3: every state a start method sets holds the local port and the local
    host of the tunnel that a successful [StartTunnel] returned, and the
    target, remote host, remote port and region of the decoded request. *)
Theorem persisted_tunnel (op : start_op) (resp : Response) (w : W)
    (data' : SSMRemoteTunnelDataSourceModel) :
  In data' (persisted (calls h (method op resp) w)) ->
  (exists info,
     In (Some info, None) (started (trace_of h (method op resp) w))
     /\ LocalPort data' = NewInt64Value (int64 (TunnelInfo_LocalPort info))
     /\ LocalHost data' = NewStringValue (TunnelInfo_LocalHost info))
  /\ Target data' = Target (Get_data (decoded op))
  /\ RemoteHost data' = RemoteHost (Get_data (decoded op))
  /\ RemotePort data' = RemotePort (Get_data (decoded op))
  /\ Region data' = Region (Get_data (decoded op)).
Proof.
  intros Hin. destruct (persisted_shape op resp w data' Hin) as (info & Hs & ->).
  split; [exists info|]; repeat split; assumption.
Qed.

(** X4: a state that a start method sets differs from the decoded request
    only in attributes that the method's schema marks [Computed]. *)
Theorem only_computed_attributes_change (op : start_op) (resp : Response) (w : W)
    (data' : SSMRemoteTunnelDataSourceModel) (name : string) (a : Attribute) :
  In data' (persisted (calls h (method op resp) w)) ->
  Attributes (schema_of op) !! name = Some a ->
  Computed a = false ->
  field data' name = field (Get_data (decoded op)) name.
Proof.
  intros Hin Hattr Hcomp.
  destruct (persisted_shape op resp w data' Hin) as (info & _ & ->).
  assert (Hname : name = "target" \/ name = "remote_host" \/ name = "remote_port"
                  \/ name = "region").
  { destruct op; cbn [schema_of RemoteTunnelDataSource_Schema
                       RemoteTunnelResource_Schema Attributes list_to_map foldr
                       uncurry fst snd] in Hattr;
      repeat (apply lookup_insert_Some in Hattr as [[<- <-] | [_ Hattr]];
              [first [discriminate Hcomp | tauto]|]);
      rewrite lookup_empty in Hattr; discriminate. }
  destruct Hname as [-> | [-> | [-> | ->]]]; reflexivity.
Qed.

(** X5: [Read] of the data source never asks for a UUID, and the state it
    sets keeps the [Id] of the decoded configuration. *)
Theorem DataSource_Read_keeps_id (req : ReadRequest) (resp : Response) (w : W) :
  generated (trace_of h (RemoteTunnelDataSource_Read req resp) w) = []
  /\ forall data',
       In data' (persisted (calls h (RemoteTunnelDataSource_Read req resp) w)) ->
       Id data' = Id (Get_data (ReadRequest_Config req)).
Proof.
  unfold calls, trace_of, RemoteTunnelDataSource_Read.
  repeat match goal with
         | |- context [if ?b then _ else _] => destruct b eqn:?; simpl
         end;
    repeat (answer h; repeat branch);
    (split; [reflexivity|]); intros data' Hin;
    repeat (destruct Hin as [Hin | Hin]; [try discriminate Hin|]);
    try contradiction; subst data'; reflexivity.
Qed.

(** X6: when [StartTunnel] returns a nil tunnel and a nil error the method
    panics on the tunnel's fields, and no state is set. *)
Theorem nil_tunnel_panics (op : start_op) (resp : Response) (w : W) :
  In (None, None) (started (trace_of h (method op resp) w)) ->
  outcome_of h (method op resp) w = Panicked
  /\ persisted (calls h (method op resp) w) = [].
Proof.
  destruct op as [req|req|req|req]; run_method h; intros Hin;
    repeat (destruct Hin as [Hin | Hin]; [try discriminate Hin|]);
    try contradiction; split; reflexivity.
Qed.

(** X7: a start method calls each collaborator at most once and in this
    order: the port allocator, the tracker, the UUID generator, the state. *)
Theorem calls_in_order (op : start_op) (resp : Response) (w : W) :
  sublist (kind_of <$> calls h (method op resp) w)
    [to_allocator; to_tracker; to_uuid; to_state].
Proof.
  destruct op as [req|req|req|req]; run_method h;
    repeat first [ apply sublist_nil | apply sublist_skip | apply sublist_cons ].
Qed.

(** X8: a start method never fails silently: when it returns without having
    set a state, its response holds an error. *)
Theorem no_state_means_error (op : start_op) (resp resp' : Response) (w : W) :
  outcome_of h (method op resp) w = Returned resp' ->
  persisted (calls h (method op resp) w) = [] ->
  resp_HasError resp' = true.
Proof.
  destruct op as [req|req|req|req]; run_method h; intros Hout Hnone;
    try discriminate Hnone; try discriminate Hout; injection Hout as <-;
    first [ assumption | apply HasError_AddError ].
Qed.

(** X9: [ImportState] starts nothing: it calls neither the port allocator
    nor the tracker, only the UUID generator and then the state, each at most
    once. *)
Theorem ImportState_starts_nothing (req : ImportStateRequest) (resp : Response) (w : W) :
  sublist (kind_of <$> calls h (RemoteTunnelResource_ImportState req resp) w)
    [to_uuid; to_state].
Proof.
  destruct (decide (length (strings_Split (ID req) "|") = 6%nat)) as [Hlen | Hlen].
  - destruct (strings_Split (ID req) "|")
      as [|a [|b [|c [|d [|e [|f [|g parts']]]]]]] eqn:Hparts;
      try discriminate Hlen.
    destruct (ImportState_accepts h req resp w a b c d e f Hparts)
      as (id & diags & w' & Hrun).
    unfold calls, trace_of. rewrite Hrun. simpl.
    repeat apply sublist_skip. apply sublist_nil.
  - unfold calls, trace_of. rewrite (ImportState_rejects h req resp w Hlen).
    simpl. apply sublist_nil_l.
Qed.

(** X10: [ImportState] sets a state exactly when the import ID holds five
    ['|'] bytes; otherwise it leaves an error in the response. *)
Theorem ImportState_five_separators (req : ImportStateRequest) (resp : Response) (w : W) :
  (persisted (calls h (RemoteTunnelResource_ImportState req resp) w) <> []
   <-> count_byte "|" (ID req) = 5%nat)
  /\ (count_byte "|" (ID req) <> 5%nat ->
      exists resp',
        outcome_of h (RemoteTunnelResource_ImportState req resp) w = Returned resp'
        /\ resp_HasError resp' = true).
Proof.
  pose proof (Split_length (ID req) "|") as Hcount.
  destruct (decide (length (strings_Split (ID req) "|") = 6%nat)) as [Hlen | Hlen].
  - assert (Hfive : count_byte "|" (ID req) = 5%nat) by lia.
    destruct (strings_Split (ID req) "|")
      as [|a [|b [|c [|d [|e [|f [|g parts']]]]]]] eqn:Hparts;
      try discriminate Hlen.
    destruct (ImportState_accepts h req resp w a b c d e f Hparts)
      as (id & diags & w' & Hrun).
    unfold calls, trace_of, outcome_of. rewrite Hrun. simpl.
    split; [split; [intros _; exact Hfive | discriminate] | contradiction].
  - assert (Hfive : count_byte "|" (ID req) <> 5%nat) by lia.
    unfold calls, trace_of, outcome_of.
    rewrite (ImportState_rejects h req resp w Hlen). cbn [fst snd fmap list_fmap persisted omap list_omap].
    split; [split; [congruence | contradiction]|].
    intros _. eexists. split; [reflexivity|].
    apply (HasError_In _ import_format_error); [|reflexivity].
    cbn [resp_Diagnostics]. apply Append_adds. now left.
Qed.

(** X11: an import ID made by joining six fields with ['|'], none of which
    holds a ['|'], is imported as exactly those fields. *)
Theorem ImportState_of_joined_fields (resp : Response) (w : W)
    (target remoteHost remotePort localPort localHost region : string) :
  Forall (fun field => occurs "|" field = false)
    [target; remoteHost; remotePort; localPort; localHost; region] ->
  exists id,
    persisted
      (calls h
         (RemoteTunnelResource_ImportState
            {| ID := strings_Join
                       [target; remoteHost; remotePort; localPort; localHost; region]
                       "|" |} resp) w)
    = [imported target remoteHost remotePort localPort localHost region id].
Proof.
  intros Hfields.
  assert (Hne : [target; remoteHost; remotePort; localPort; localHost; region] <> [])
    by discriminate.
  pose proof (Split_Join _ "|" Hne Hfields) as Hsplit.
  destruct (ImportState_accepts h {| ID := strings_Join _ "|" |} resp w
              _ _ _ _ _ _ Hsplit) as (id & diags & w' & Hrun).
  exists id. unfold calls, trace_of. rewrite Hrun. reflexivity.
Qed.

(** X12: a port field of a six-field import ID that is a decimal numeral
    shorter than the limit of [Atoi]'s fast path (10 bytes where [int] has
    32 bits, 19 where it has 64) is persisted as the number it denotes. *)
Theorem ImportState_numeric_ports (req : ImportStateRequest) (resp : Response) (w : W)
    (target remoteHost remotePort localPort localHost region : string) :
  strings_Split (ID req) "|"
  = [target; remoteHost; remotePort; localPort; localHost; region] ->
  exists data,
    persisted (calls h (RemoteTunnelResource_ImportState req resp) w) = [data]
    /\ (numeric remotePort = true ->
        (String.length remotePort < Atoi_fast_bytes)%nat ->
        RemotePort data = NewInt64Value (numeral_value remotePort))
    /\ (numeric localPort = true ->
        (String.length localPort < Atoi_fast_bytes)%nat ->
        LocalPort data = NewInt64Value (numeral_value localPort)).
Proof.
  intros Hparts.
  destruct (ImportState_accepts h req resp w _ _ _ _ _ _ Hparts)
    as (id & diags & w' & Hrun).
  unfold calls, trace_of. rewrite Hrun. eexists. split; [reflexivity|].
  cbn [imported RemotePort LocalPort].
  split; intros Hnum Hlen;
    destruct (Atoi_numeral _ Hnum Hlen) as [-> Hb]; cbn [fst];
    rewrite (int64_in_range _ (in_int_in_int64 _ Hb)); reflexivity.
Qed.

(** The first call [Read] of the resource makes to the tracker, on the state
    [data]: [StartTunnel] under the [Id] of the state, with its local port
    converted to [int], or the allocator's port when that is 0. *)
Lemma Read_identity (data : SSMRemoteTunnelDataSourceModel) (resp : Response) (w : W) :
  let port := int (ValueInt64 (LocalPort data)) in
  let r := fst (h _ (ports_FindOpenPort 16000 26000) w) in
  resp_HasError resp = false ->
  (port = 0 -> snd r = None) ->
  find is_StartTunnel (calls h (method (read_state data) resp) w)
  = Some (start_call data (if port =? 0 then fst r else port))
  /\ StartTunnel_ids (calls h (method (read_state data) resp) w)
     = [ValueString (Id data)].
Proof.
  intros port r Hresp Halloc.
  assert (Hdec : decodes (read_state data) resp) by exact Hresp.
  destruct (calls_after_decoding h (read_state data) resp w Hdec)
    as [Hgiven Hzero].
  cbn [read_state decoded ReadRequest_State Get_data] in Hgiven, Hzero.
  fold port in Hgiven, Hzero.
  assert (Hids : forall rest, forallb other_call rest = true ->
                              StartTunnel_ids rest = []).
  { induction rest as [|c rest IH]; [reflexivity|]. simpl.
    intros H. apply andb_true_iff in H as [Hc Hrest].
    destruct c; try discriminate Hc; simpl; auto. }
  destruct (port =? 0) eqn:E.
  - apply Z.eqb_eq in E. destruct (Hzero E) as (rest & -> & Hrest).
    fold r in Hrest. rewrite (Halloc E) in Hrest.
    destruct Hrest as (rest' & -> & Hother).
    split; [reflexivity|]. simpl. now rewrite (Hids _ Hother).
  - apply Z.eqb_neq in E. destruct (Hgiven E) as (rest & -> & Hother).
    split; [reflexivity|]. simpl. now rewrite (Hids _ Hother).
Qed.

(** X13: [Read] of the resource on an imported state starts the tunnel
    under the UUID chosen at import, with the imported target, remote host
    and region, the remote port as [Atoi] read it, and the local port as
    [Atoi] read it, or the port the allocator finds when [Atoi] read 0. *)
Theorem imported_state_is_read (req : ImportStateRequest) (resp resp2 : Response)
    (w w2 : W) (data : SSMRemoteTunnelDataSourceModel) :
  let r := fst (h _ (ports_FindOpenPort 16000 26000) w2) in
  In data (persisted (calls h (RemoteTunnelResource_ImportState req resp) w)) ->
  resp_HasError resp2 = false ->
  (ValueInt64 (LocalPort data) = 0 -> snd r = None) ->
  exists target remoteHost remotePort localPort localHost region id,
    strings_Split (ID req) "|"
    = [target; remoteHost; remotePort; localPort; localHost; region]
    /\ generated (trace_of h (RemoteTunnelResource_ImportState req resp) w) = [id]
    /\ ValueInt64 (LocalPort data) = fst (strconv_Atoi localPort)
    /\ find is_StartTunnel (calls h (method (read_state data) resp2) w2)
       = Some (StartTunnel_call id target remoteHost (fst (strconv_Atoi remotePort))
                 (if fst (strconv_Atoi localPort) =? 0 then fst r
                  else fst (strconv_Atoi localPort))
                 region).
Proof.
  intros r Hin Hresp Halloc.
  destruct (decide (length (strings_Split (ID req) "|") = 6%nat)) as [Hlen | Hlen].
  2:{ unfold calls, trace_of in Hin.
      rewrite (ImportState_rejects h req resp w Hlen) in Hin. contradiction. }
  destruct (strings_Split (ID req) "|")
    as [|a [|b [|c [|d [|e [|f [|g parts']]]]]]] eqn:Hparts;
    try discriminate Hlen.
  destruct (ImportState_accepts h req resp w a b c d e f Hparts)
    as (id & diags & w' & Hrun).
  unfold calls, trace_of in Hin |- *. rewrite Hrun in Hin |- *.
  destruct Hin as [<- | []].
  destruct (Atoi_round_trip c) as [Hc64 Hc].
  destruct (Atoi_round_trip d) as [Hd64 Hd].
  cbn [imported LocalPort ValueInt64] in Halloc. rewrite Hd64 in Halloc.
  destruct (Read_identity (imported a b c d e f id) resp2 w2 Hresp) as [Hfind _].
  - cbn [imported LocalPort ValueInt64]. rewrite Hd64, Hd. exact Halloc.
  - exists a, b, c, d, e, f, id. split; [reflexivity|]. split; [reflexivity|].
    split; [cbn [imported LocalPort ValueInt64]; exact Hd64|].
    unfold calls, trace_of in Hfind. rewrite Hfind.
    unfold start_call. cbn [imported Id Target RemoteHost RemotePort LocalPort Region
                             ValueString ValueInt64].
    rewrite Hc64, Hc, Hd64, Hd. reflexivity.
Qed.

(** X14: [Create] starts the tunnel under the [Id] of the configuration but
    persists a fresh UUID, and [Read] on the state it has set asks the
    tracker for that UUID: the tunnel is looked up under another identity
    than the one it was started with.  Where [int] has 32 bits the local
    port the tracker reported, an [int] there, is taken to fit it. *)
Theorem created_state_is_read_under_its_uuid (req : CreateRequest) (resp resp2 : Response)
    (w w2 : W) (data : SSMRemoteTunnelDataSourceModel) :
  In data (persisted (calls h (RemoteTunnelResource_Create req resp) w)) ->
  resp_HasError resp2 = false ->
  (ValueInt64 (LocalPort data) = 0 ->
   snd (fst (h _ (ports_FindOpenPort 16000 26000) w2)) = None) ->
  (intSize = 32 -> in_int (ValueInt64 (LocalPort data))) ->
  exists id,
    generated (trace_of h (RemoteTunnelResource_Create req resp) w) = [id]
    /\ StartTunnel_ids (calls h (RemoteTunnelResource_Create req resp) w)
       = [ValueString (Id (Get_data (CreateRequest_Config req)))]
    /\ StartTunnel_ids (calls h (method (read_state data) resp2) w2) = [id].
Proof.
  intros Hin Hresp Halloc Hfits.
  assert (Hcreate : exists id info,
            generated (trace_of h (RemoteTunnelResource_Create req resp) w) = [id]
            /\ StartTunnel_ids (calls h (RemoteTunnelResource_Create req resp) w)
               = [ValueString (Id (Get_data (CreateRequest_Config req)))]
            /\ Id data = NewStringValue id
            /\ LocalPort data = NewInt64Value (int64 (TunnelInfo_LocalPort info))).
  { revert Hin. unfold calls, trace_of, RemoteTunnelResource_Create.
    repeat match goal with
           | |- context [if ?b then _ else _] => destruct b eqn:?; simpl
           end;
      repeat (answer h; repeat branch); intros Hin;
      repeat (destruct Hin as [Hin | Hin]; [try discriminate Hin|]);
      try contradiction; subst data; do 2 eexists; repeat split. }
  destruct Hcreate as (id & info & Hgen & Hids & Hid & Hlp).
  assert (Hint : int (ValueInt64 (LocalPort data)) = ValueInt64 (LocalPort data)).
  { apply int_in_range.
    destruct intSize_cases as [(Hsize & _) | (Hsize & _)]; [now apply Hfits|].
    unfold in_int. rewrite Hsize, Hlp. apply wrap_in_range. }
  destruct (Read_identity data resp2 w2 Hresp) as [_ Hread].
  - rewrite Hint. exact Halloc.
  - exists id. rewrite Hread, Hid. auto.
Qed.

End Methods.

(** The examples below run on a 64-bit platform. *)
Section On_arch64.
#[local] Existing Instance arch64.


Lemma undecoded_request_makes_no_call_witness :
  trace_of (scripted exhausted ready_at) (method undecoded empty_resp) 0%nat = [].
Proof.
  unfold trace_of.
  rewrite (undecoded_request_makes_no_call (scripted exhausted ready_at)
             undecoded empty_resp 0%nat eq_refl).
  reflexivity.
Defined.

Lemma StartTunnel_error_reported_witness :
  persisted (calls (scripted exhausted refused) (method (create rds_config) empty_resp)
               0%nat) = [].
Proof.
  destruct (StartTunnel_error_reported (scripted exhausted refused)
              (create rds_config) empty_resp 0%nat None session_exited)
    as [Hnone _]; [left; reflexivity | exact Hnone].
Defined.

Lemma persisted_tunnel_witness :
  Target rds_created = Target rds_config
  /\ RemotePort rds_created = RemotePort rds_config.
Proof.
  destruct (persisted_tunnel (scripted exhausted ready_at) (create rds_config)
              empty_resp 0%nat rds_created) as (_ & Htarget & _ & Hport & _);
    [left; reflexivity | split; assumption].
Defined.

Lemma only_computed_attributes_change_witness :
  field rds_created "remote_host" = field rds_config "remote_host".
Proof.
  apply (only_computed_attributes_change (scripted exhausted ready_at)
           (create rds_config) empty_resp 0%nat rds_created "remote_host"
           (mkAttribute StringAttribute
              "The DNS name or IP address of the remote host" true false false)).
  - left. reflexivity.
  - vm_compute. reflexivity.
  - reflexivity.
Defined.

Lemma nil_tunnel_panics_witness :
  outcome_of (scripted exhausted nil_tunnel) (method (create rds_config) empty_resp)
    0%nat = Panicked.
Proof.
  destruct (nil_tunnel_panics (scripted exhausted nil_tunnel) (create rds_config)
              empty_resp 0%nat) as [Hpanic _];
    [left; reflexivity | exact Hpanic].
Defined.

Lemma no_state_means_error_witness :
  resp_HasError
    (resp_AddError empty_resp "Failed to start remote tunnel"
       (Sprintf_Error session_exited)) = true.
Proof.
  apply (no_state_means_error (scripted exhausted refused) (create rds_config)
           empty_resp _ 0%nat); reflexivity.
Defined.

Lemma ImportState_of_joined_fields_witness :
  exists id,
    persisted
      (calls (scripted exhausted ready_at)
         (RemoteTunnelResource_ImportState
            {| ID := strings_Join
                       ["i-123456789"; "db.example.internal"; "5432"; "17638";
                        "127.0.0.1"; "us-east-1"] "|" |} empty_resp) 0%nat)
    = [imported "i-123456789" "db.example.internal" "5432" "17638" "127.0.0.1"
         "us-east-1" id].
Proof.
  apply (ImportState_of_joined_fields (scripted exhausted ready_at) empty_resp 0%nat).
  repeat constructor.
Defined.

Lemma ImportState_numeric_ports_witness :
  exists data,
    persisted (calls (scripted exhausted ready_at)
                 (RemoteTunnelResource_ImportState import_rds empty_resp) 0%nat)
    = [data]
    /\ RemotePort data = NewInt64Value (numeral_value "5432").
Proof.
  destruct (ImportState_numeric_ports (scripted exhausted ready_at) import_rds
              empty_resp 0%nat "i-123456789" "db.example.internal" "5432" "17638"
              "127.0.0.1" "us-east-1" eq_refl) as (data & Hdata & Hremote & _).
  exists data. split; [exact Hdata|]. apply Hremote; [reflexivity|].
  simpl. lia.
Defined.

Lemma imported_state_is_read_witness :
  exists target remoteHost remotePort localPort localHost region id,
    strings_Split (ID import_rds) "|"
    = [target; remoteHost; remotePort; localPort; localHost; region]
    /\ generated (trace_of (scripted exhausted ready_at)
                    (RemoteTunnelResource_ImportState import_rds empty_resp) 0%nat)
       = [id]
    /\ ValueInt64 (LocalPort rds_imported) = fst (strconv_Atoi localPort)
    /\ find is_StartTunnel
         (calls (scripted exhausted ready_at) (method (read_state rds_imported) empty_resp)
            1%nat)
       = Some (StartTunnel_call id target remoteHost (fst (strconv_Atoi remotePort))
                 (if fst (strconv_Atoi localPort) =? 0
                  then fst (fst (scripted exhausted ready_at _
                                   (ports_FindOpenPort 16000 26000) 1%nat))
                  else fst (strconv_Atoi localPort))
                 region).
Proof.
  apply (imported_state_is_read (scripted exhausted ready_at) import_rds
           empty_resp empty_resp 0%nat 1%nat rds_imported).
  - left. reflexivity.
  - reflexivity.
  - intros H. vm_compute in H. discriminate H.
Defined.

Lemma created_state_is_read_under_its_uuid_witness :
  exists id,
    generated (trace_of (scripted exhausted ready_at)
                 (RemoteTunnelResource_Create
                    {| CreateRequest_Config := mkData rds_config [] |} empty_resp)
                 0%nat) = [id]
    /\ StartTunnel_ids
         (calls (scripted exhausted ready_at)
            (RemoteTunnelResource_Create
               {| CreateRequest_Config := mkData rds_config [] |} empty_resp) 0%nat)
       = [ValueString (Id (Get_data (CreateRequest_Config
                                       {| CreateRequest_Config := mkData rds_config [] |})))]
    /\ StartTunnel_ids
         (calls (scripted exhausted ready_at) (method (read_state rds_created) empty_resp)
            1%nat) = [id].
Proof.
  apply (created_state_is_read_under_its_uuid (scripted exhausted ready_at)
           {| CreateRequest_Config := mkData rds_config [] |} empty_resp empty_resp
           0%nat 1%nat rds_created).
  - left. reflexivity.
  - reflexivity.
  - intros H. vm_compute in H. discriminate H.
  - intros H. discriminate H.
Defined.

Lemma ImportState_five_separators_witness :
  exists resp',
    outcome_of (scripted exhausted ready_at)
      (RemoteTunnelResource_ImportState import_five empty_resp) 0%nat = Returned resp'
    /\ resp_HasError resp' = true.
Proof.
  destruct (ImportState_five_separators (scripted exhausted ready_at) import_five
              empty_resp 0%nat) as [_ Hreject].
  apply Hreject. discriminate.
Defined.

End On_arch64.

(** X15: [Configure] of the data source and of the resource leaves an error
    exactly when the provider data is neither nil nor a [*TunnelTracker]
    (given a response without one), changes the tracker only when it is
    given one, and configuring a second time with the same provider data
    changes nothing more. *)
Theorem Configure_twice (d : RemoteTunnelDataSource) (r : RemoteTunnelResource)
    (req : ConfigureRequest) (resp : Response) :
  let cd := RemoteTunnelDataSource_Configure d req resp in
  let cr := RemoteTunnelResource_Configure r req resp in
  RemoteTunnelDataSource_Configure (fst cd) req (snd cd) = cd
  /\ RemoteTunnelResource_Configure (fst cr) req (snd cr) = cr
  /\ snd cd = snd cr
  /\ (resp_HasError resp = false ->
      (resp_HasError (snd cd) = true <-> exists T, ProviderData req = any_other T)
      /\ (resp_HasError (snd cd) = true ->
          DataSource_tracker (fst cd) = DataSource_tracker d
          /\ Resource_tracker (fst cr) = Resource_tracker r))
  /\ (forall tracker, ProviderData req = any_TunnelTracker tracker ->
        DataSource_tracker (fst cd) = tracker /\ Resource_tracker (fst cr) = tracker)
  /\ (ProviderData req = any_nil -> cd = (d, resp) /\ cr = (r, resp)).
Proof.
  unfold RemoteTunnelDataSource_Configure, RemoteTunnelResource_Configure.
  destruct (ProviderData req) as [|tracker|T]; cbn [fst snd];
    [| |unfold resp_AddError; cbn [resp_Diagnostics]; rewrite AddError_twice];
    repeat split;
    try reflexivity; try congruence; try discriminate;
    try (intros [T' HT]; discriminate HT);
    try (intros t [= <-]; reflexivity);
    try (simpl in *; congruence);
    eauto using HasError_AddError.
Qed.

Lemma Configure_twice_witness :
  resp_HasError
    (snd (RemoteTunnelDataSource_Configure NewRemoteTunnelDataSource
            {| ProviderData := any_other "string" |} empty_resp)) = true.
Proof.
  destruct (Configure_twice NewRemoteTunnelDataSource NewRemoteTunnelResource
              {| ProviderData := any_other "string" |} empty_resp)
    as (_ & _ & _ & Herr & _).
  destruct (Herr eq_refl) as [Hiff _]. apply Hiff. eexists. reflexivity.
Defined.

(** Finds the attribute of a schema literal by its name. *)
Ltac schema_lookup :=
  cbn [Attributes list_to_map foldr uncurry fst snd];
  repeat first [ rewrite lookup_insert_eq | rewrite lookup_insert_ne by congruence ];
  rewrite ?lookup_empty.

(** X16: the model struct and the schema of the remote_tunnel data source
    and resource agree: the struct has a field tagged with a name exactly
    when the schema has an attribute of that name, and then of the same
    type; the two schemas hold the same attributes. *)
Theorem schema_matches_model (data : SSMRemoteTunnelDataSourceModel) (name : string) :
  match Attributes RemoteTunnelDataSource_Schema !! name with
  | Some a => exists v, field data name = Some v /\ type_of v = attr_type a
  | None => field data name = None
  end
  /\ RemoteTunnelResource_Schema = RemoteTunnelDataSource_Schema.
Proof.
  split; [|reflexivity]. unfold field, RemoteTunnelDataSource_Schema.
  repeat match goal with
         | |- context [String.eqb name ?k] =>
             destruct (String.eqb_spec name k) as [-> | ?];
             [schema_lookup; eexists; split; reflexivity|]
         end.
  schema_lookup. reflexivity.
Qed.

End RemoteTunnelExtras.

(** ** The ssm_remote_tunnel data source, continued *)

Module SSMRemoteTunnelExtras.
Import SSMRemoteTunnel.

Ltac schema_lookup :=
  cbn [Attributes list_to_map foldr uncurry fst snd];
  repeat first [ rewrite lookup_insert_eq | rewrite lookup_insert_ne by congruence ];
  rewrite ?lookup_empty.

Section Read.
Context {W : Type} (h : Handler Call W).

(** X17: [Read] of the ssm_remote_tunnel data source calls nothing when the
    response holds an error once the configuration is decoded; otherwise it
    calls [StartTunnel] with the configured ports as they are, never more
    than once, then the tracker's map, the [select] and the state, each at
    most once and in this order. *)
Theorem Read_calls (req : ReadRequest) (resp : Response) (w : W) :
  let data := Get_data (ReadRequest_Config req) in
  let P := SSMRemoteTunnelDataSource_Read req resp in
  (resp_HasError (resp_Append resp (Get_diags (ReadRequest_Config req))) = true ->
   run h P w = (Returned (resp_Append resp (Get_diags (ReadRequest_Config req))), w, []))
  /\ (resp_HasError (resp_Append resp (Get_diags (ReadRequest_Config req))) = false ->
      exists found,
        sublist (calls h P w)
          [start_call data; Tunnels_call (ValueString (Id data));
           select_call found; State_Set_call data]
        /\ exists rest, calls h P w = start_call data :: rest).
Proof.
  intros data P. subst P. unfold calls, trace_of, SSMRemoteTunnelDataSource_Read.
  fold data. split; intros Hdec; rewrite Hdec; [reflexivity|].
  cbn [run].
  destruct (h _ (tracker_StartTunnel _ _ _ _ _ _) w) as [err w1].
  cbn [run].
  destruct (h _ (tracker_Tunnels _) w1) as [[info|] w2]; cbn [run].
  - exists info.
    destruct (h _ (select info) w2) as [[[|]|] w3]; cbn [run];
      try destruct (h _ (State_Set data) w3) as [diags w4]; cbn;
      (split; [|eexists; reflexivity]);
      repeat first [ apply sublist_nil | apply sublist_skip | apply sublist_cons ].
  - exists (mkTunnelInfo 0). cbn.
    split; [|eexists; reflexivity].
    repeat first [ apply sublist_nil | apply sublist_skip | apply sublist_cons ].
Qed.

(** X18: [Read] of the ssm_remote_tunnel data source never fails silently:
    when it returns without having set the state, its response holds an
    error. *)
Theorem Read_without_state_has_error (req : ReadRequest) (resp resp' : Response)
    (w : W) :
  outcome_of h (SSMRemoteTunnelDataSource_Read req resp) w = Returned resp' ->
  persisted (calls h (SSMRemoteTunnelDataSource_Read req resp) w) = [] ->
  resp_HasError resp' = true.
Proof.
  unfold outcome_of, calls, trace_of, SSMRemoteTunnelDataSource_Read.
  destruct (resp_HasError (resp_Append resp _)) eqn:Hdec.
  - simpl. intros [= <-] _. exact Hdec.
  - cbn [run].
    destruct (h _ (tracker_StartTunnel _ _ _ _ _ _) w) as [err w1].
    cbn [run].
    destruct (h _ (tracker_Tunnels _) w1) as [[info|] w2]; cbn [run].
    + destruct (h _ (select info) w2) as [[[|]|] w3]; cbn [run].
      * destruct (h _ (State_Set _) w3) as [diags w4]. cbn. discriminate.
      * cbn. intros [= <-] _. apply HasError_AddError.
      * cbn. discriminate.
    + cbn. intros [= <-] _. apply HasError_AddError.
Qed.

End Read.

Lemma Read_calls_witness :
  exists found,
    sublist (calls (scripted None None None)
               (SSMRemoteTunnelDataSource_Read read_eks empty_resp) tt)
      [start_call eks_config; Tunnels_call (ValueString (Id eks_config));
       select_call found; State_Set_call eks_config]
    /\ exists rest,
         calls (scripted None None None)
           (SSMRemoteTunnelDataSource_Read read_eks empty_resp) tt
         = start_call eks_config :: rest.
Proof.
  destruct (Read_calls (scripted None None None) read_eks empty_resp tt)
    as [_ Hcalls].
  apply Hcalls. reflexivity.
Defined.

Lemma Read_without_state_has_error_witness :
  resp_HasError
    (resp_AddError empty_resp "Tunnel not found"
       "The requested tunnel does not exist in the tracker.") = true.
Proof.
  apply (Read_without_state_has_error (scripted None None None) read_eks empty_resp _ tt);
    reflexivity.
Defined.

(** X19: the model struct and the schema of the ssm_remote_tunnel data
    source agree on the names and types of the attributes, and the schema
    requires the local port: there is no attribute for a local host. *)
Theorem ssm_schema_matches_model (data : SSMRemoteTunnelDataSourceModel) (name : string) :
  match Attributes SSMRemoteTunnelDataSource_Schema !! name with
  | Some a => exists v, field data name = Some v /\ type_of v = attr_type a
  | None => field data name = None
  end
  /\ Required <$> Attributes SSMRemoteTunnelDataSource_Schema !! "local_port" = Some true
  /\ Attributes SSMRemoteTunnelDataSource_Schema !! "local_host" = None.
Proof.
  split; [|split; vm_compute; reflexivity].
  unfold field, SSMRemoteTunnelDataSource_Schema.
  repeat match goal with
         | |- context [String.eqb name ?k] =>
             destruct (String.eqb_spec name k) as [-> | ?];
             [schema_lookup; eexists; split; reflexivity|]
         end.
  schema_lookup. reflexivity.
Qed.

(** X21: [Configure] of the ssm_remote_tunnel data source leaves an error
    exactly when the provider data is neither nil nor a [*TunnelTracker]
    (given a response without one) and then keeps the tracker it had; it
    takes the tracker it is given, and configuring a second time with the
    same provider data changes nothing more. *)
Theorem ssm_Configure_twice (d : SSMRemoteTunnelDataSource) (req : ConfigureRequest)
    (resp : Response) :
  let cd := SSMRemoteTunnelDataSource_Configure d req resp in
  SSMRemoteTunnelDataSource_Configure (fst cd) req (snd cd) = cd
  /\ (resp_HasError resp = false ->
      (resp_HasError (snd cd) = true <-> exists T, ProviderData req = any_other T)
      /\ (resp_HasError (snd cd) = true ->
          DataSource_tracker (fst cd) = DataSource_tracker d))
  /\ (forall tracker, ProviderData req = any_TunnelTracker tracker ->
        DataSource_tracker (fst cd) = tracker)
  /\ (ProviderData req = any_nil -> cd = (d, resp)).
Proof.
  unfold SSMRemoteTunnelDataSource_Configure.
  destruct (ProviderData req) as [|tracker|T]; cbn [fst snd];
    [| |unfold resp_AddError; cbn [resp_Diagnostics]; rewrite AddError_twice];
    repeat split;
    try reflexivity; try congruence; try discriminate;
    try (intros [T' HT]; discriminate HT);
    try (intros t [= <-]; reflexivity);
    try (simpl in *; congruence);
    eauto using HasError_AddError.
Qed.

Lemma ssm_Configure_twice_witness :
  DataSource_tracker
    (fst (SSMRemoteTunnelDataSource_Configure NewSSMRemoteTunnelDataSource
            {| ProviderData := any_TunnelTracker (Some 1%nat) |} empty_resp))
  = Some 1%nat.
Proof.
  destruct (ssm_Configure_twice NewSSMRemoteTunnelDataSource
              {| ProviderData := any_TunnelTracker (Some 1%nat) |} empty_resp)
    as (_ & _ & Hset & _).
  apply Hset. reflexivity.
Defined.

End SSMRemoteTunnelExtras.

(** ** Type names *)

Lemma list_ascii_of_append (a b : string) :
  list_ascii_of_string (a ++ b)
  = (list_ascii_of_string a ++ list_ascii_of_string b)%list.
Proof. induction a as [|c a IH]; simpl; [reflexivity | now rewrite IH]. Qed.

Lemma append_cancel_r (a b suffix : string) :
  a ++ suffix = b ++ suffix -> a = b.
Proof.
  intros H. apply (f_equal list_ascii_of_string) in H.
  rewrite !list_ascii_of_append in H. apply app_inv_tail in H.
  apply (f_equal string_of_list_ascii) in H.
  now rewrite !string_of_list_ascii_of_string in H.
Qed.

Lemma append_differs (p : string) : p ++ "_remote_tunnel" <> p ++ "_ssm_remote_tunnel".
Proof. induction p as [|c p IH]; simpl; [discriminate|]. intros [= H]. auto. Qed.

(** X20: for every provider name, the remote_tunnel data source and
    resource get the same type name, the ssm_remote_tunnel data source
    another one, and two provider names never give the same type name. *)
Theorem type_names (req req' : MetadataRequest) (resp : MetadataResponse) :
  RemoteTunnel.RemoteTunnelDataSource_Metadata req resp
  = RemoteTunnel.RemoteTunnelResource_Metadata req resp
  /\ TypeName (RemoteTunnel.RemoteTunnelDataSource_Metadata req resp)
     <> TypeName (SSMRemoteTunnel.SSMRemoteTunnelDataSource_Metadata req resp)
  /\ (TypeName (RemoteTunnel.RemoteTunnelResource_Metadata req resp)
      = TypeName (RemoteTunnel.RemoteTunnelResource_Metadata req' resp) ->
      ProviderTypeName req = ProviderTypeName req')
  /\ (TypeName (SSMRemoteTunnel.SSMRemoteTunnelDataSource_Metadata req resp)
      = TypeName (SSMRemoteTunnel.SSMRemoteTunnelDataSource_Metadata req' resp) ->
      ProviderTypeName req = ProviderTypeName req').
Proof.
  split; [reflexivity|]. split; [apply append_differs|].
  split; simpl; apply append_cancel_r.
Qed.

Lemma type_names_witness :
  ProviderTypeName {| ProviderTypeName := "awsssmtunnels" |}
  = ProviderTypeName {| ProviderTypeName := "awsssmtunnels" |}.
Proof.
  destruct (type_names {| ProviderTypeName := "awsssmtunnels" |}
              {| ProviderTypeName := "awsssmtunnels" |} {| TypeName := "" |})
    as (_ & _ & Hinj & _).
  apply Hinj. reflexivity.
Defined.
